(** * batch_containers.py: scale-out orchestration on a batch backend

    A shallow embedding of [src/batch_containers.py] (class
    [AzureBatchContainers] and the sizing part of [run_tasks]) together
    with the properties of its sizing policy, pool provisioning, task
    fan-out, completion barrier and teardown.

    Layout: the fragments of the Python runtime the module relies on
    ([Py]), the batch service it talks to ([Service]), the class and the
    module-level functions ([Batch]), and then the theorems. *)

From Stdlib Require Import ZArith Lia Ascii String DecimalString DecimalZ DecimalPos.
From stdpp Require Import base option list strings gmap.

Local Open Scope Z_scope.

(** ** Python runtime fragments *)

Module Py.

(** Exceptions that the modelled code can raise or let through.  All of
    them derive from [Exception], so a bare [except Exception] catches
    each one. *)
Inductive Exn : Type :=
| TypeError (msg : string)
| ValueError (msg : string)
| KeyError (key : string)
| AttributeError (attr : string)
| RuntimeError (msg : string)
| ZeroDivisionError
| OverflowError
| EOFError
| BatchErrorException (code : string).

Inductive Res (A : Type) : Type :=
| Ok (a : A)
| Raise (e : Exn).
Arguments Ok {A} a.
Arguments Raise {A} e.

Definition is_TypeError (e : Exn) : bool :=
  match e with TypeError _ => true | _ => false end.

Definition is_RuntimeError (e : Exn) : bool :=
  match e with RuntimeError _ => true | _ => false end.

(** *** Strings *)

Definition ascii_in (c : ascii) (cs : list ascii) : bool :=
  existsb (Ascii.eqb c) cs.

Fixpoint lstrip (cs : list ascii) (s : string) : string :=
  match s with
  | String c s' => if ascii_in c cs then lstrip cs s' else s
  | EmptyString => EmptyString
  end.

(** [rstrip] keeps a character when something that is kept follows it. *)
Fixpoint rstrip (cs : list ascii) (s : string) : string :=
  match s with
  | String c s' =>
      match rstrip cs s' with
      | EmptyString => if ascii_in c cs then EmptyString else String c EmptyString
      | r => String c r
      end
  | EmptyString => EmptyString
  end.

(** [s.strip(chars)] *)
Definition strip (cs : list ascii) (s : string) : string :=
  rstrip cs (lstrip cs s).

(** [s.strip("'")], as applied to most configuration values. *)
Definition strip_quote (s : string) : string := strip ["'"%char] s.

(** ASCII white space, what [int] and [str.strip()] ignore. *)
Definition whitespace : list ascii :=
  [" "%char; "009"%char; "010"%char; "011"%char; "012"%char; "013"%char].

Definition lower_ascii (c : ascii) : ascii :=
  let n := nat_of_ascii c in
  if (Nat.leb 65 n && Nat.leb n 90)%bool then ascii_of_nat (n + 32) else c.

(** [s.lower()] on byte strings. *)
Fixpoint lower (s : string) : string :=
  match s with
  | String c s' => String (lower_ascii c) (lower s')
  | EmptyString => EmptyString
  end.

(** [str(n)] for an integer. *)
Definition str_int (n : Z) : string := NilEmpty.string_of_int (Z.to_int n).

Definition is_digit (c : ascii) : bool :=
  let n := nat_of_ascii c in (Nat.leb 48 n && Nat.leb n 57)%bool.

(** Digits of an integer literal; a single underscore may separate two
    digits.  [prev] tells whether the previous character was a digit. *)
Fixpoint digits_value (prev : bool) (acc : Z) (s : string) : option Z :=
  match s with
  | EmptyString => if prev then Some acc else None
  | String c s' =>
      if is_digit c then
        digits_value true (10 * acc + (Z.of_nat (nat_of_ascii c) - 48)) s'
      else if (Ascii.eqb c "_" && prev)%bool then digits_value false acc s'
      else None
  end.

(** [int(s)] for a string in base 10: surrounding white space, an
    optional sign, then the digits.  Strings are ASCII here, so are the
    digits; the message of the [ValueError] gives the string as it is,
    where Python gives its [repr]. *)
Definition int_of_str (s : string) : Res Z :=
  let body := strip whitespace s in
  let bad := Raise (ValueError ("invalid literal for int() with base 10: " +:+ s)) in
  match body with
  | String "-" d =>
      match digits_value false 0 d with Some n => Ok (- n) | None => bad end
  | String "+" d =>
      match digits_value false 0 d with Some n => Ok n | None => bad end
  | d =>
      match digits_value false 0 d with Some n => Ok n | None => bad end
  end.

(** Truth value of an optional string argument: [None] and [""] are
    false. *)
Definition truthy (o : option string) : bool :=
  match o with
  | Some (String _ _) => true
  | _ => false
  end.

(** *** True division of integers and truncation of floats

    [a / b] on two [int]s yields the binary64 float nearest to the exact
    quotient (ties to even); [int(x)] truncates a float toward zero.  A
    finite float is kept as [mant * 2 ^ expo]. *)

Record float : Type := Float { mant : Z; expo : Z }.

(** Nearest integer to [n / d] for [d > 0], ties to the even one. *)
Definition round_half_even (n d : Z) : Z :=
  let q := n / d in
  let r := n mod d in
  if 2 * r <? d then q
  else if d <? 2 * r then q + 1
  else if Z.even q then q else q + 1.

(** [floor (log2 (a / b))] for positive [a] and [b]: the difference of
    the two bit lengths, less one when [a / b] is below that power. *)
Definition quot_log2 (a b : Z) : Z :=
  let la := Z.log2 a in
  let lb := Z.log2 b in
  if a * 2 ^ lb <? b * 2 ^ la then la - lb - 1 else la - lb.

Definition truediv_pos (a b : Z) : Res float :=
  let k := quot_log2 a b in
  let e := Z.max (k - 52) (-1074) in
  let m := round_half_even (a * 2 ^ Z.max (- e) 0) (b * 2 ^ Z.max e 0) in
  if 2 ^ 1024 <=? m * 2 ^ Z.max e 0 then Raise OverflowError
  else Ok (Float m e).

Definition float_neg (x : float) : float := Float (- mant x) (expo x).

(** [a / b] for [int] operands. *)
Definition truediv (a b : Z) : Res float :=
  if b =? 0 then Raise ZeroDivisionError
  else if a =? 0 then Ok (Float 0 0)
  else
    match truediv_pos (Z.abs a) (Z.abs b) with
    | Ok x => Ok (if Z.sgn a * Z.sgn b <? 0 then float_neg x else x)
    | Raise e => Raise e
    end.

(** [int(x)] for a finite float. *)
Definition int_of_float (x : float) : Z :=
  if 0 <=? expo x then mant x * 2 ^ expo x
  else Z.quot (mant x) (2 ^ (- expo x)).

(** *** Durations and dates

    A [timedelta] and a naive [datetime] are both counted in
    microseconds, the latter from 0001-01-01 00:00:00. *)

Definition us_per_second : Z := 1000000.
Definition us_per_day : Z := 86400 * us_per_second.

Definition timedelta (hours seconds : Z) : Z :=
  (hours * 3600 + seconds) * us_per_second.

(** A [datetime] holds the instants from 0001-01-01 00:00:00 to
    9999-12-31 23:59:59.999999, which is in day 3652058 counted from
    0. *)
Definition datetime_min : Z := 0.
Definition datetime_max : Z := 3652059 * us_per_day - 1.

(** [dt + td] for a [datetime] and a [timedelta]: the sum is exact, and
    a sum that is no [datetime] raises [OverflowError]. *)
Definition datetime_add (dt td : Z) : Res Z :=
  let r := dt + td in
  if ((datetime_min <=? r) && (r <=? datetime_max))%bool then Ok r
  else Raise OverflowError.

(** Decimal rendering padded with zeros to [width] characters, the
    [%0<width>d] conversion for a non-negative number. *)
Definition zero_pad (width : nat) (n : Z) : string :=
  let s := str_int n in
  String.concat "" (repeat "0"%string (width - String.length s)) +:+ s.

(** [str(td)] for a [timedelta]. *)
Definition str_timedelta (td : Z) : string :=
  let days := td / us_per_day in
  let rest := td mod us_per_day in
  let secs := rest / us_per_second in
  let us := rest mod us_per_second in
  let hh := secs / 3600 in
  let mm := (secs / 60) mod 60 in
  let ss := secs mod 60 in
  let s := str_int hh +:+ ":" +:+ zero_pad 2 mm +:+ ":" +:+ zero_pad 2 ss in
  let s :=
    if days =? 0 then s
    else str_int days +:+ " day" +:+ (if Z.abs days =? 1 then "" else "s")
         +:+ ", " +:+ s in
  if us =? 0 then s else s +:+ "." +:+ zero_pad 6 us.

(** Proleptic Gregorian date of day number [n], counted from 0 for
    0001-01-01 (the standard library's [_ord2ymd]). *)
Definition days_before_month : list Z :=
  [-1; 0; 31; 59; 90; 120; 151; 181; 212; 243; 273; 304; 334].
Definition days_in_month : list Z :=
  [-1; 31; 28; 31; 30; 31; 30; 31; 31; 30; 31; 30; 31].

Definition ord2ymd (n : Z) : Z * Z * Z :=
  let n400 := n / 146097 in
  let n := n mod 146097 in
  let year := n400 * 400 + 1 in
  let n100 := n / 36524 in
  let n := n mod 36524 in
  let n4 := n / 1461 in
  let n := n mod 1461 in
  let n1 := n / 365 in
  let n := n mod 365 in
  let year := year + n100 * 100 + n4 * 4 + n1 in
  if ((n1 =? 4) || (n100 =? 4))%bool then (year - 1, 12, 31)
  else
    let leapyear := ((n1 =? 3) && (negb (n4 =? 24) || (n100 =? 3)))%bool in
    let month := Z.shiftr (n + 50) 5 in
    let preceding :=
      nth (Z.to_nat month) days_before_month 0
      + (if ((2 <? month) && leapyear)%bool then 1 else 0) in
    if n <? preceding then
      let month := month - 1 in
      let preceding :=
        preceding
        - (nth (Z.to_nat month) days_in_month 0
           + (if ((month =? 2) && leapyear)%bool then 1 else 0)) in
      (year, month, n - preceding + 1)
    else (year, month, n - preceding + 1).

(** ["{:%Y-%m-%d-%H-%M-%S}".format(dt)] for a year of four digits. *)
Definition strftime_dashes (dt : Z) : string :=
  let '(y, m, d) := ord2ymd (dt / us_per_day) in
  let secs := (dt mod us_per_day) / us_per_second in
  str_int y +:+ "-" +:+ zero_pad 2 m +:+ "-" +:+ zero_pad 2 d +:+ "-"
  +:+ zero_pad 2 (secs / 3600) +:+ "-" +:+ zero_pad 2 ((secs / 60) mod 60)
  +:+ "-" +:+ zero_pad 2 (secs mod 60).

(** [range(n)] *)
Definition range (n : Z) : list Z := map Z.of_nat (seq 0 (Z.to_nat n)).

(** *** Logging

    Levels are numbers; a logger without a level of its own takes the
    first level set on the way to the root logger. *)

Definition NOTSET : Z := 0.
Definition DEBUG : Z := 10.
Definition INFO : Z := 20.
Definition WARNING : Z := 30.

Record LogRecord : Type := LogRec { levelno : Z; message : string }.

(** [Logger.getEffectiveLevel] over the chain of loggers, child first. *)
Fixpoint getEffectiveLevel (chain : list Z) : Z :=
  match chain with
  | [] => NOTSET
  | l :: rest => if l =? 0 then getEffectiveLevel rest else l
  end.

(** [Logger.isEnabledFor]; [disable] is the level of [logging.disable]. *)
Definition isEnabledFor (disable : Z) (chain : list Z) (level : Z) : bool :=
  if level <=? disable then false else getEffectiveLevel chain <=? level.

(** Keyword parameters of [Logger._log], to which [debug], [info] and
    [warning] pass their keyword arguments on. *)
Definition log_keywords : list string :=
  ["exc_info"; "extra"; "stack_info"; "stacklevel"].

Definition unexpected_keyword (kwargs : list string) : option string :=
  List.find (fun k => negb (existsb (String.eqb k) log_keywords)) kwargs.

#[global] Arguments strip_quote : simpl never.
#[global] Arguments str_int : simpl never.
#[global] Arguments int_of_str : simpl never.
#[global] Arguments str_timedelta : simpl never.
#[global] Arguments strftime_dashes : simpl never.
#[global] Arguments lower : simpl never.

End Py.

Import Py.

(** ** The batch service

    The compute backend is an external collaborator.  It is modelled as
    a store of pools and of jobs with their tasks, with the operations the client
    calls, each of which is also recorded in a trace of calls.  The
    state of a task is driven by the backend alone: [schedule] gives it
    as a function of the job, the task and the time. *)

Module Service.

Record ContainerRegistry : Type := {
  registry_server : string;
  user_name : string;
  password : string
}.

Record ImageReference : Type := {
  publisher : string;
  offer : string;
  sku : string;
  version : string
}.

(** [MountConfiguration] holding an [AzureFileShareConfiguration]. *)
Record MountConfiguration : Type := {
  account_name : string;
  azure_file_url : string;
  account_key : string;
  relative_mount_path : string;
  mount_options : string
}.

Record PoolAddParameter : Type := {
  pool_param_id : string;
  image_reference : ImageReference;
  container_image_names : list string;
  container_registries : list ContainerRegistry;
  node_agent_sku_id : string;
  vm_size : string;
  max_tasks_per_node : Z;
  target_dedicated_nodes : Z;
  target_low_priority_nodes : Z;
  mount_configuration : option (list MountConfiguration)
}.

Inductive ElevationLevel : Type := non_admin | admin.
Inductive AutoUserScope : Type := scope_task | scope_pool.

Record TaskAddParameter : Type := {
  task_param_id : string;
  command_line : string;
  task_image_name : string;
  container_run_options : string;
  environment_settings : list (string * option string);
  elevation_level : ElevationLevel;
  scope : AutoUserScope
}.

Inductive TaskState : Type := active | preparing | running | completed.

Definition TaskState_eqb (a b : TaskState) : bool :=
  match a, b with
  | active, active | preparing, preparing
  | running, running | completed, completed => true
  | _, _ => false
  end.

Record CloudTask : Type := { cloud_task_id : string; state : TaskState }.

Inductive JobState : Type := job_active | job_deleting.

Record CloudJob : Type := {
  cloud_job_id : string;
  cloud_job_pool : string;
  cloud_job_state : JobState;
  cloud_job_tasks : list TaskAddParameter
}.

Inductive Call : Type :=
| PoolExists (pool_id : string)
| PoolAdd (pool : PoolAddParameter)
| PoolDelete (pool_id : string)
| JobAdd (job_id pool_id : string)
| JobDelete (job_id : string)
| JobList
| TaskAdd (job_id : string) (task : TaskAddParameter)
| TaskList (job_id : string).

Record Backend : Type := {
  pools : list PoolAddParameter;
  jobs : list CloudJob;
  schedule : string -> string -> Z -> TaskState;
  calls : list Call
}.

Definition record_call (c : Call) (b : Backend) : Backend :=
  {| pools := pools b; jobs := jobs b; schedule := schedule b;
     calls := calls b ++ [c] |}.

Definition set_pools (ps : list PoolAddParameter) (b : Backend) : Backend :=
  {| pools := ps; jobs := jobs b; schedule := schedule b; calls := calls b |}.

Definition set_jobs (js : list CloudJob) (b : Backend) : Backend :=
  {| pools := pools b; jobs := js; schedule := schedule b; calls := calls b |}.

Definition has_pool (pid : string) (b : Backend) : bool :=
  existsb (fun p => String.eqb (pool_param_id p) pid) (pools b).

Definition find_job (jid : string) (b : Backend) : option CloudJob :=
  List.find (fun j => String.eqb (cloud_job_id j) jid) (jobs b).

Definition has_task (tid : string) (j : CloudJob) : bool :=
  existsb (fun t => String.eqb (task_param_id t) tid) (cloud_job_tasks j).

(** [pool.exists(pool_id)] *)
Definition pool_exists (pid : string) (b : Backend) : Res bool * Backend :=
  let b := record_call (PoolExists pid) b in
  (Ok (has_pool pid b), b).

(** [pool.add(pool)]: an id already in use is rejected. *)
Definition pool_add (p : PoolAddParameter) (b : Backend) : Res unit * Backend :=
  let b := record_call (PoolAdd p) b in
  if has_pool (pool_param_id p) b then (Raise (BatchErrorException "PoolExists"), b)
  else (Ok tt, set_pools (pools b ++ [p]) b).

(** [pool.delete(pool_id)] *)
Definition pool_delete (pid : string) (b : Backend) : Res unit * Backend :=
  let b := record_call (PoolDelete pid) b in
  if has_pool pid b then
    (Ok tt, set_pools (List.filter (fun p => negb (String.eqb (pool_param_id p) pid)) (pools b)) b)
  else (Raise (BatchErrorException "PoolNotFound"), b).

(** [job.add(job)]: the pool must exist and the id must be new. *)
Definition job_add (jid pid : string) (b : Backend) : Res unit * Backend :=
  let b := record_call (JobAdd jid pid) b in
  match find_job jid b with
  | Some _ => (Raise (BatchErrorException "JobExists"), b)
  | None =>
      if has_pool pid b then
        (Ok tt, set_jobs (jobs b ++ [{| cloud_job_id := jid; cloud_job_pool := pid;
                                        cloud_job_state := job_active;
                                        cloud_job_tasks := [] |}]) b)
      else (Raise (BatchErrorException "InvalidPropertyValue"), b)
  end.

Definition mark_deleting (jid : string) (j : CloudJob) : CloudJob :=
  if String.eqb (cloud_job_id j) jid then
    {| cloud_job_id := cloud_job_id j; cloud_job_pool := cloud_job_pool j;
       cloud_job_state := job_deleting; cloud_job_tasks := cloud_job_tasks j |}
  else j.

(** [job.delete(job_id)]: deletion is asynchronous, the job stays listed
    in the deleting state, in which a second deletion is rejected. *)
Definition job_delete (jid : string) (b : Backend) : Res unit * Backend :=
  let b := record_call (JobDelete jid) b in
  match find_job jid b with
  | None => (Raise (BatchErrorException "JobNotFound"), b)
  | Some j =>
      match cloud_job_state j with
      | job_deleting => (Raise (BatchErrorException "JobBeingDeleted"), b)
      | job_active => (Ok tt, set_jobs (map (mark_deleting jid) (jobs b)) b)
      end
  end.

(** [job.list()] *)
Definition job_list (b : Backend) : Res (list CloudJob) * Backend :=
  let b := record_call JobList b in
  (Ok (jobs b), b).

Definition append_task (jid : string) (t : TaskAddParameter) (j : CloudJob) : CloudJob :=
  if String.eqb (cloud_job_id j) jid then
    {| cloud_job_id := cloud_job_id j; cloud_job_pool := cloud_job_pool j;
       cloud_job_state := cloud_job_state j;
       cloud_job_tasks := cloud_job_tasks j ++ [t] |}
  else j.

(** [task.add(job_id, task)]: the job must be there and active, and the
    task id new within the job. *)
Definition task_add (jid : string) (t : TaskAddParameter) (b : Backend)
  : Res unit * Backend :=
  let b := record_call (TaskAdd jid t) b in
  match find_job jid b with
  | None => (Raise (BatchErrorException "JobNotFound"), b)
  | Some j =>
      match cloud_job_state j with
      | job_deleting => (Raise (BatchErrorException "JobBeingDeleted"), b)
      | job_active =>
          if has_task (task_param_id t) j then
            (Raise (BatchErrorException "TaskExists"), b)
          else (Ok tt, set_jobs (map (append_task jid t) (jobs b)) b)
      end
  end.

(** [task.list(job_id)] at time [now]. *)
Definition task_list (jid : string) (now : Z) (b : Backend)
  : Res (list CloudTask) * Backend :=
  let b := record_call (TaskList jid) b in
  match find_job jid b with
  | None => (Raise (BatchErrorException "JobNotFound"), b)
  | Some j =>
      (Ok (map (fun t => {| cloud_task_id := task_param_id t;
                            state := schedule b jid (task_param_id t) now |})
               (cloud_job_tasks j)), b)
  end.

(** Ids of the tasks submitted by the calls of a trace, in order. *)
Definition task_adds (cs : list Call) : list (string * string) :=
  omap (fun c => match c with
                 | TaskAdd jid t => Some (jid, task_param_id t)
                 | _ => None
                 end) cs.

(** Pools submitted for creation by the calls of a trace. *)
Definition pool_adds (cs : list Call) : list string :=
  omap (fun c => match c with
                 | PoolAdd p => Some (pool_param_id p)
                 | _ => None
                 end) cs.

(** Jobs whose deletion was attempted by the calls of a trace. *)
Definition job_deletes (cs : list Call) : list string :=
  omap (fun c => match c with
                 | JobDelete jid => Some jid
                 | _ => None
                 end) cs.

(** Jobs whose tasks were listed by the calls of a trace. *)
Definition task_lists (cs : list Call) : list string :=
  omap (fun c => match c with
                 | TaskList jid => Some jid
                 | _ => None
                 end) cs.

#[global] Arguments has_pool : simpl never.
#[global] Arguments find_job : simpl never.
#[global] Arguments has_task : simpl never.

End Service.

Import Service.

(** ** The module [batch_containers] *)

Module Batch.

(** *** State and effects

    Everything outside the program is gathered in [World]: the clock,
    the console and the log, and the batch service.  A computation
    takes a state and yields a value or an exception together with the
    state it leaves behind; what was done before an exception stays
    done. *)

Record World : Type := {
  clock : Z;
  stdin : list string;
  stdout : list string;
  log : list LogRecord;
  service : Backend
}.

Definition St (S A : Type) : Type := S -> Res A * S.

Definition ret {S A} (a : A) : St S A := fun s => (Ok a, s).

Definition bind {S A B} (c : St S A) (k : A -> St S B) : St S B :=
  fun s =>
    match c s with
    | (Ok a, s') => k a s'
    | (Raise e, s') => (Raise e, s')
    end.

Definition raise {S A} (e : Exn) : St S A := fun s => (Raise e, s).

(** [try: c  except Exception as e: h e] *)
Definition try_except {S A} (c : St S A) (h : Exn -> St S A) : St S A :=
  fun s =>
    match c s with
    | (Ok a, s') => (Ok a, s')
    | (Raise e, s') => h e s'
    end.

Definition gets {S A} (f : S -> A) : St S A := fun s => (Ok (f s), s).

Definition modify {S} (f : S -> S) : St S unit := fun s => (Ok tt, f s).

Definition of_res {S A} (r : Res A) : St S A := fun s => (r, s).

Declare Scope py_scope.
Delimit Scope py_scope with py.
Notation "x <- c ;; k" := (bind c (fun x => k))
  (at level 100, c at next level, right associativity) : py_scope.
Notation "c ;; k" := (bind c (fun _ => k))
  (at level 100, right associativity) : py_scope.
Local Open Scope py_scope.

(** [for x in xs: body x] *)
Fixpoint for_each {S A} (xs : list A) (body : A -> St S unit) : St S unit :=
  match xs with
  | [] => ret tt
  | x :: rest => body x ;; for_each rest body
  end.

(** A [for] loop that carries a local variable from one round to the
    next. *)
Fixpoint for_fold {S A V} (xs : list A) (v : V) (body : V -> A -> St S V)
  : St S V :=
  match xs with
  | [] => ret v
  | x :: rest => v' <- body v x ;; for_fold rest v' body
  end.

(** [[f x for x in xs]] *)
Fixpoint comprehension {S A B} (xs : list A) (f : A -> St S B) : St S (list B) :=
  match xs with
  | [] => ret []
  | x :: rest => y <- f x ;; ys <- comprehension rest f ;; ret (y :: ys)
  end.

(** *** The world's operations *)

Definition set_clock (t : Z) (w : World) : World :=
  {| clock := t; stdin := stdin w; stdout := stdout w; log := log w;
     service := service w |}.

Definition set_stdin (l : list string) (w : World) : World :=
  {| clock := clock w; stdin := l; stdout := stdout w; log := log w;
     service := service w |}.

Definition set_stdout (l : list string) (w : World) : World :=
  {| clock := clock w; stdin := stdin w; stdout := l; log := log w;
     service := service w |}.

Definition set_log (l : list LogRecord) (w : World) : World :=
  {| clock := clock w; stdin := stdin w; stdout := stdout w; log := l;
     service := service w |}.

Definition set_service (b : Backend) (w : World) : World :=
  {| clock := clock w; stdin := stdin w; stdout := stdout w; log := log w;
     service := b |}.

(** [datetime.datetime.now()] *)
Definition datetime_now : St World Z := gets clock.

(** [time.sleep(seconds)] *)
Definition time_sleep (seconds : Z) : St World unit :=
  modify (fun w => set_clock (clock w + seconds * us_per_second) w).

Definition newline : string := String "010"%char EmptyString.

(** [print(s, end=e)] *)
Definition print (s e : string) : St World unit :=
  modify (fun w => set_stdout (stdout w ++ [s +:+ e]) w).

(** [input(prompt)] *)
Definition input (prompt : string) : St World string :=
  modify (fun w => set_stdout (stdout w ++ [prompt]) w) ;;
  l <- gets stdin ;;
  match l with
  | [] => raise EOFError
  | line :: rest => modify (set_stdin rest) ;; ret line
  end.

(** The logging set-up of the module: line 33 puts the root logger at
    [NOTSET], [logger = logging.getLogger(__name__)] has no level of its
    own, and [logging.disable] is never called. *)
Definition root_level : Z := NOTSET.
Definition logger_level : Z := NOTSET.
Definition manager_disable : Z := 0.

(** [logger.log(level, msg, **kwargs)]: an enabled logger hands the
    keyword arguments to [_log], which rejects the ones it does not
    know. *)
Definition logger_log (level : Z) (msg : string) (kwargs : list string)
  : St World unit :=
  if isEnabledFor manager_disable [logger_level; root_level] level then
    match unexpected_keyword kwargs with
    | Some k =>
        raise (TypeError ("_log() got an unexpected keyword argument '" +:+ k +:+ "'"))
    | None => modify (fun w => set_log (log w ++ [LogRec level msg]) w)
    end
  else ret tt.

Definition logger_debug (msg : string) : St World unit := logger_log DEBUG msg [].
Definition logger_info (msg : string) : St World unit := logger_log INFO msg [].
Definition logger_warning (msg : string) : St World unit := logger_log WARNING msg [].

(** A call of the batch client. *)
Definition client {A} (op : Backend -> Res A * Backend) : St World A :=
  fun w => let (r, b) := op (service w) in (r, set_service b w).

(** *** Configuration

    A [ConfigParser]: sections of string options.  Reading a missing
    section or option raises [KeyError].  The values are taken to be
    free of [%], the one character that a [ConfigParser] interprets. *)

Definition lookup_option (cfg : gmap string (gmap string string))
    (section key : string) : Res string :=
  match cfg !! section with
  | None => Raise (KeyError section)
  | Some sec =>
      match sec !! key with
      | None => Raise (KeyError key)
      | Some v => Ok v
      end
  end.

(** [cfg[section][key] = v] *)
Definition assign_option (cfg : gmap string (gmap string string))
    (section key v : string) : Res (gmap string (gmap string string)) :=
  match cfg !! section with
  | None => Raise (KeyError section)
  | Some sec => Ok (<[section := <[key := v]> sec]> cfg)
  end.

(** *** class AzureBatchContainers

    The attributes of an instance.  [__init__] sets the first eight;
    the others exist only once the method that assigns them has run,
    and reading one before that raises [AttributeError]. *)

Record Self : Type := {
  config : gmap string (gmap string string);
  image_name : string;
  image_version : string;
  registry : ContainerRegistry;
  image_ref_to_use : ImageReference;
  workspace : option string;
  access_key : option string;
  use_fileshare : bool;
  mount_path : option string;
  new_pool : option PoolAddParameter;
  pool_id : option string;
  job_id : option string;
  task_id : option string
}.

Definition set_use_fileshare (v : bool) (o : Self) : Self :=
  {| config := config o; image_name := image_name o;
     image_version := image_version o; registry := registry o;
     image_ref_to_use := image_ref_to_use o; workspace := workspace o;
     access_key := access_key o; use_fileshare := v;
     mount_path := mount_path o; new_pool := new_pool o;
     pool_id := pool_id o; job_id := job_id o; task_id := task_id o |}.

Definition set_mount_path (v : string) (o : Self) : Self :=
  {| config := config o; image_name := image_name o;
     image_version := image_version o; registry := registry o;
     image_ref_to_use := image_ref_to_use o; workspace := workspace o;
     access_key := access_key o; use_fileshare := use_fileshare o;
     mount_path := Some v; new_pool := new_pool o;
     pool_id := pool_id o; job_id := job_id o; task_id := task_id o |}.

Definition set_new_pool (v : PoolAddParameter) (o : Self) : Self :=
  {| config := config o; image_name := image_name o;
     image_version := image_version o; registry := registry o;
     image_ref_to_use := image_ref_to_use o; workspace := workspace o;
     access_key := access_key o; use_fileshare := use_fileshare o;
     mount_path := mount_path o; new_pool := Some v;
     pool_id := pool_id o; job_id := job_id o; task_id := task_id o |}.

Definition set_pool_id (v : string) (o : Self) : Self :=
  {| config := config o; image_name := image_name o;
     image_version := image_version o; registry := registry o;
     image_ref_to_use := image_ref_to_use o; workspace := workspace o;
     access_key := access_key o; use_fileshare := use_fileshare o;
     mount_path := mount_path o; new_pool := new_pool o;
     pool_id := Some v; job_id := job_id o; task_id := task_id o |}.

Definition set_job_id (v : string) (o : Self) : Self :=
  {| config := config o; image_name := image_name o;
     image_version := image_version o; registry := registry o;
     image_ref_to_use := image_ref_to_use o; workspace := workspace o;
     access_key := access_key o; use_fileshare := use_fileshare o;
     mount_path := mount_path o; new_pool := new_pool o;
     pool_id := pool_id o; job_id := Some v; task_id := task_id o |}.

Definition set_task_id (v : string) (o : Self) : Self :=
  {| config := config o; image_name := image_name o;
     image_version := image_version o; registry := registry o;
     image_ref_to_use := image_ref_to_use o; workspace := workspace o;
     access_key := access_key o; use_fileshare := use_fileshare o;
     mount_path := mount_path o; new_pool := new_pool o;
     pool_id := pool_id o; job_id := job_id o; task_id := Some v |}.

Record State : Type := { self : Self; world : World }.

Abbreviation M := (St State).

(** An operation of the world, run from a method. *)
Definition io {A} (c : St World A) : M A :=
  fun s => let (r, w) := c (world s) in (r, {| self := self s; world := w |}).

(** [self.<attr> = v] *)
Definition setattr (f : Self -> Self) : M unit :=
  modify (fun s => {| self := f (self s); world := world s |}).

(** [self.<attr>] for an attribute that may not exist yet. *)
Definition getattr {A} (name : string) (f : Self -> option A) : M A :=
  o <- gets (fun s => f (self s)) ;;
  match o with
  | Some v => ret v
  | None =>
      raise (AttributeError
               ("'AzureBatchContainers' object has no attribute '" +:+ name +:+ "'"))
  end.

(** [self.config[section][key]] *)
Definition config_get (section key : string) : M string :=
  cfg <- gets (fun s => config (self s)) ;;
  of_res (lookup_option cfg section key).

(** [int(self.config[section][key])] *)
Definition config_int (section key : string) : M Z :=
  v <- config_get section key ;;
  of_res (int_of_str v).

(** Rendering of a mount configuration in a log message.  The text the
    SDK produces holds the address of the object; only the mount path is
    kept here. *)
Definition format_mount (m : MountConfiguration) : string :=
  "MountConfiguration(" +:+ relative_mount_path m +:+ ")".

(** [create_pool(self, skip_if_exists=True, use_fileshare=True)],
    lines 184-247. *)
Definition create_pool (skip_if_exists use_fileshare_arg : bool) : M unit :=
  pid <- config_get "POOL" "POOL_ID" ;;
  let pid := strip_quote pid in
  pool_vm_size <- config_get "POOL" "VM_SIZE" ;;
  let pool_vm_size := strip_quote pool_vm_size in
  num_tasks_per_node <- config_int "POOL" "TASKS_PER_NODE" ;;
  pool_low_priority_node_count <- config_int "POOL" "LOW_PRI_NODES" ;;
  pool_dedicated_node_count <- config_int "POOL" "DEDICATED_NODES" ;;
  node_agent_sku <- config_get "POOL" "AGENT_SKU" ;;
  let node_agent_sku := strip_quote node_agent_sku in
  setattr (set_use_fileshare use_fileshare_arg) ;;
  image <- gets (fun s => image_name (self s) +:+ ":" +:+ image_version (self s)) ;;
  reg <- gets (fun s => registry (self s)) ;;
  platform <- config_get "ACR" "PLATFORM" ;;
  setattr (set_mount_path (if String.eqb platform "windows" then "S" else "azfileshare")) ;;
  fileshare_mount <-
    (if use_fileshare_arg then
       acc <- config_get "STORAGE" "ACCOUNT_NAME" ;;
       url <- config_get "STORAGE" "URL" ;;
       key <- config_get "STORAGE" "ACCOUNT_KEY" ;;
       mp <- getattr "mount_path" mount_path ;;
       let m := {| account_name := acc; azure_file_url := url;
                   account_key := key; relative_mount_path := mp;
                   mount_options := "/persistent:Yes" |} in
       io (logger_info ("Using fileshare mount " +:+ format_mount m)) ;;
       ret (Some [m])
     else ret None) ;;
  img_ref <- gets (fun s => image_ref_to_use (self s)) ;;
  let pool := {| pool_param_id := pid;
                 image_reference := img_ref;
                 container_image_names := [image];
                 container_registries := [reg];
                 node_agent_sku_id := node_agent_sku;
                 vm_size := pool_vm_size;
                 max_tasks_per_node := num_tasks_per_node;
                 target_dedicated_nodes := pool_dedicated_node_count;
                 target_low_priority_nodes := pool_low_priority_node_count;
                 mount_configuration := fileshare_mount |} in
  setattr (set_new_pool pool) ;;
  create <-
    (if negb skip_if_exists then ret true
     else e <- io (client (pool_exists pid)) ;; ret (negb e)) ;;
  (if create : bool then
     io (logger_warning ("Creating new pool named " +:+ pid)) ;;
     p <- getattr "new_pool" new_pool ;;
     io (client (pool_add p))
   else io (logger_warning ("Pool exists, re-using " +:+ pid))) ;;
  setattr (set_pool_id pid).

(** The first [delete_pool], lines 249-252.  The second definition of
    the same name, further down in the class body, replaces it. *)
Definition delete_pool_shadowed (pool_name : string) : M unit :=
  io (logger_info ("Deleting pool: " +:+ pool_name)) ;;
  io (client (pool_delete pool_name)).

(** [add_job(self, job_name=None)], lines 254-271. *)
Definition add_job (job_name : option string) : M unit :=
  (if truthy job_name then setattr (set_job_id (default "" job_name))
   else
     name <- config_get "POOL" "JOB_NAME" ;;
     now <- io datetime_now ;;
     setattr (set_job_id ("Job-" +:+ strip_quote name +:+ "-" +:+ strftime_dashes now))) ;;
  jid <- getattr "job_id" job_id ;;
  pid <- getattr "pool_id" pool_id ;;
  io (logger_info ("Adding job " +:+ jid +:+ " to pool " +:+ pid)) ;;
  io (client (job_add jid pid)).

(** [delete_job(self, job_name=None)], lines 273-275: the client
    refuses a missing job id. *)
Definition delete_job (job_name : option string) : M unit :=
  match job_name with
  | None => raise (ValueError "Parameter 'job_id' must not be None.")
  | Some jid => io (client (job_delete jid))
  end.

(** The local function [try_delete] of [delete_all_tasks]: it has no
    [return], so its value is [None], here [tt], on both paths. *)
Definition try_delete (jid : string) : M unit :=
  try_except (io (client (job_delete jid)))
             (fun e => io (print "already gone" newline)).

(** [delete_all_tasks(self)], lines 277-289. *)
Definition delete_all_tasks : M (list unit) :=
  js <- io (client job_list) ;;
  let jid_list := map cloud_job_id js in
  comprehension jid_list try_delete.

(** [delete_pool(self)], lines 291-295. *)
Definition delete_pool : M unit :=
  pool_name <- config_get "POOL" "POOL_ID" ;;
  io (logger_info ("Deleting pool: " +:+ pool_name)) ;;
  io (client (pool_delete pool_name)).

(** [add_task(self, task_command, task_name, start_dir=None)],
    lines 320-377. *)
Definition add_task (task_command task_name : string) (start_dir : option string)
  : M unit :=
  let start_dir := if truthy start_dir then default "" start_dir else "src" in
  publisher <- config_get "POOL" "PUBLISHER" ;;
  let extra_opts :=
    if String.eqb publisher "MicrosoftWindowsServer"
    then "-w C:\" +:+ start_dir +:+ "\"
    else "--workdir /" +:+ start_dir +:+ "/" in
  fileshare <- gets (fun s => use_fileshare (self s)) ;;
  extra_opts <-
    (if fileshare : bool then
       publisher <- config_get "POOL" "PUBLISHER" ;;
       let mount :=
         if String.eqb publisher "MicrosoftWindowsServer"
         then "S:\:C:\" +:+ start_dir +:+ "\logs"
         else "/azfileshare/:/" +:+ start_dir +:+ "/logs" in
       ret (extra_opts +:+ " --volume " +:+ mount)
     else ret extra_opts) ;;
  setattr (set_task_id task_name) ;;
  pid <- getattr "pool_id" pool_id ;;
  io (logger_debug ("Submitting task " +:+ task_name +:+ " to pool " +:+ pid
                    +:+ " with command " +:+ task_command)) ;;
  io (logger_debug ("Extra configuration operations: " +:+ extra_opts)) ;;
  image <- gets (fun s => image_name (self s) +:+ ":" +:+ image_version (self s)) ;;
  tid <- getattr "task_id" task_id ;;
  ws <- gets (fun s => workspace (self s)) ;;
  key <- gets (fun s => access_key (self s)) ;;
  let task := {| task_param_id := tid;
                 command_line := task_command;
                 task_image_name := image;
                 container_run_options := extra_opts;
                 environment_settings :=
                   [("SIM_WORKSPACE", ws); ("SIM_ACCESS_KEY", key)];
                 elevation_level := admin;
                 scope := scope_task |} in
  jid <- getattr "job_id" job_id ;;
  io (client (task_add jid task)).

(** The [while] loop of [wait_for_tasks_to_complete] and what follows
    it, lines 390-408.  [None] is returned when [fuel] rounds were not
    enough to leave the loop. *)
Fixpoint wait_loop (fuel : nat) (timeout_expiration timeout : Z)
  : M (option bool) :=
  match fuel with
  | O => ret None
  | S fuel' =>
      now <- io datetime_now ;;
      if now <? timeout_expiration then
        io (print "." "") ;;
        jid <- getattr "job_id" job_id ;;
        now <- io datetime_now ;;
        ts <- io (client (task_list jid now)) ;;
        let incomplete_tasks :=
          List.filter (fun t => negb (TaskState_eqb (state t) completed)) ts in
        match incomplete_tasks with
        | [] => io (print "" newline) ;; ret (Some true)
        | _ :: _ =>
            io (time_sleep 1) ;;
            wait_loop fuel' timeout_expiration timeout
        end
      else
        io (print "" newline) ;;
        raise (RuntimeError
                 ("ERROR: Tasks did not reach 'Completed' state within "
                  +:+ "timeout period of " +:+ str_timedelta timeout))
  end.

(** Rounds that suffice for a loop that sleeps one second per round. *)
Definition wait_fuel (timeout : Z) : nat :=
  Z.to_nat (timeout / us_per_second) + 2.

(** [wait_for_tasks_to_complete(self, timeout)], lines 379-408.  The
    expiration of line 381 is a [datetime], so the addition can raise
    [OverflowError]; the call of [logger.info] carries the keyword
    argument [end]. *)
Definition wait_for_tasks_to_complete (timeout : Z) : M (option bool) :=
  now <- io datetime_now ;;
  timeout_expiration <- of_res (datetime_add now timeout) ;;
  io (logger_log INFO
        ("Monitoring all tasks for 'Completed' state, timeout in "
         +:+ str_timedelta timeout +:+ "...")
        ["end"]) ;;
  wait_loop (wait_fuel timeout) timeout_expiration timeout.

(** Name of the [i]-th task of a campaign, line 445. *)
Definition task_name_of (i : Z) (campaign : string) : string :=
  "job_number" +:+ str_int i +:+ "_" +:+ campaign.

(** One round of the [for] loop of [batch_main], lines 435-449;
    [command] is the local variable the loop may assign. *)
Definition fan_out_step (workdir : option string) (command : option string) (i : Z)
  : M (option string) :=
  delay <- config_int "POOL" "TIME_DELAY_BETWEEN_SIMS" ;;
  io (logger_debug ("Staggering " +:+ str_int delay +:+ "s between task")) ;;
  let command := if truthy command then command else Some "python main.py" in
  name <- config_get "POOL" "JOB_NAME" ;;
  add_task (default "" command) (task_name_of i (strip_quote name)) workdir ;;
  ret command.

(** The [for] loop of [batch_main], lines 434-449. *)
Definition fan_out (command workdir : option string) : M (option string) :=
  n <- config_int "POOL" "NUM_TASKS" ;;
  for_fold (range n) command (fan_out_step workdir).

(** [batch_main(self, command=None, brain_name=None, wait_for_tasks=False,
    log_iterations=False, workdir=None)], lines 410-460. *)
Definition batch_main (command brain_name : option string)
    (wait_for_tasks log_iterations : bool) (workdir : option string) : M unit :=
  create_pool true log_iterations ;;
  add_job None ;;
  brain_name <-
    (if truthy brain_name then ret (default "" brain_name)
     else b <- config_get "BONSAI" "BRAIN_NAME" ;; ret (strip_quote b)) ;;
  account <- config_get "BATCH" "ACCOUNT_NAME" ;;
  job_name <- config_get "POOL" "JOB_NAME" ;;
  num_tasks <- config_get "POOL" "NUM_TASKS" ;;
  io (logger_info ("Using batch account " +:+ account +:+ " to run job "
                   +:+ job_name +:+ " with " +:+ num_tasks +:+ " tasks")) ;;
  fan_out command workdir ;;
  if wait_for_tasks then
    wait_for_tasks_to_complete (timedelta 2 0) ;;
    io (logger_info "Success! All tasks reached the 'Completed' state within the specified timeout period.")
  else
    io (logger_info "Submitted all tasks, use self.list_tasks to view currently running tasks.").

(** *** Method lookup

    A class body is run from top to bottom and each [def] binds its
    name anew, so a name bound twice refers to the later function.
    The bindings of [delete_pool] are listed in the order of the source;
    a method is kept with the number of arguments it takes after
    [self]. *)

Inductive Method : Type :=
| Method0 (body : M unit)
| Method1 (body : string -> M unit).

Definition class_body : list (string * Method) :=
  [ ("delete_pool", Method1 delete_pool_shadowed);
    ("delete_pool", Method0 delete_pool) ].

(** The namespace a class body leaves behind. *)
Definition class_dict : gmap string Method :=
  fold_left (fun d b => <[fst b := snd b]> d) class_body ∅.

(** A call [obj.name(args...)] with string arguments. *)
Definition call_method (name : string) (args : list string) : M unit :=
  match class_dict !! name with
  | None =>
      raise (AttributeError
               ("'AzureBatchContainers' object has no attribute '" +:+ name +:+ "'"))
  | Some (Method0 body) =>
      match args with
      | [] => body
      | _ => raise (TypeError (name +:+ "() takes 1 positional argument but "
                               +:+ str_int (Z.of_nat (length args) + 1)
                               +:+ " were given"))
      end
  | Some (Method1 body) =>
      match args with
      | [a] => body a
      | _ => raise (TypeError (name +:+ "() called with a wrong number of arguments"))
      end
  end.

(** *** run_tasks: the sizing of the pool, lines 543-577

    [num_tasks] reaches [run_tasks] as a string or as an integer. *)

Inductive Arg : Type :=
| ArgNone
| ArgStr (s : string)
| ArgInt (n : Z).

Definition arg_truthy (a : Arg) : bool :=
  match a with
  | ArgNone => false
  | ArgStr s => truthy (Some s)
  | ArgInt n => negb (n =? 0)
  end.

(** [int(a)] *)
Definition int_of_arg (a : Arg) : Res Z :=
  match a with
  | ArgNone =>
      Raise (TypeError "int() argument must be a string, a bytes-like object or a real number, not 'NoneType'")
  | ArgStr s => int_of_str s
  | ArgInt n => Ok n
  end.

(** [str(a)] *)
Definition str_of_arg (a : Arg) : string :=
  match a with
  | ArgNone => "None"
  | ArgStr s => s
  | ArgInt n => str_int n
  end.

(** Line 550: [max(int(int(num_tasks) / total_nodes), 1)]. *)
Definition tasks_per_node_of (num_tasks : Arg) (total_nodes : Z) : Res Z :=
  match int_of_arg num_tasks with
  | Raise e => Raise e
  | Ok n =>
      match truediv n total_nodes with
      | Raise e => Raise e
      | Ok x => Ok (Z.max (int_of_float x) 1)
      end
  end.

(** Lines 562-576: the VM size for a number of tasks per node, when the
    caller names none. *)
Definition select_vm_sku (tasks_per_node : Z) (vm_sku : string) : St World string :=
  if tasks_per_node <=? 8 then ret "Standard_E2s_v3"
  else if tasks_per_node <=? 16 then ret "Standard_E8s_v3"
  else if tasks_per_node <=? 32 then ret "Standard_E16s_v3"
  else if tasks_per_node <=? 75 then ret "Standard_E32s_v3"
  else if 75 <? tasks_per_node then
    logger_info ("Running " +:+ str_int tasks_per_node
                 +:+ " tasks per node, please check if VM Size is compatible") ;;
    ret "Standard_E64s_v3"
  else ret vm_sku.

(** Lines 557-576: the VM size asked from the operator when the
    argument [vm_sku] is missing. *)
Definition choose_vm_sku (tasks_per_node : Z) (vm_sku : option string)
  : St World string :=
  if truthy vm_sku then ret (default "" vm_sku)
  else
    v <- input "What VM Name / SKU do you want to use? (if you don't know say None): " ;;
    if (String.eqb (lower v) "none" || String.eqb (lower v) "")%bool
    then select_vm_sku tasks_per_node v
    else ret v.

(** Lines 543-577 of [run_tasks]: from the arguments to the pool shape
    written into the configuration.  The result holds the new
    configuration, [tasks_per_node] and [vm_sku]. *)
Definition run_tasks_sizing (cfg : gmap string (gmap string string))
    (task_to_run : option string) (num_tasks : Arg)
    (low_pri_nodes dedicated_nodes : Z) (vm_sku : option string)
  : St World (gmap string (gmap string string) * Z * string) :=
  task_to_run <-
    (if truthy task_to_run then ret (default "" task_to_run)
     else input "Please enter task to run from container (e.g., python __main__.py): ") ;;
  num_tasks <-
    (if arg_truthy num_tasks then ret num_tasks
     else n <- input "Number of simulators to run as tasks on Batch: " ;; ret (ArgStr n)) ;;
  let total_nodes := low_pri_nodes + dedicated_nodes in
  tasks_per_node <- of_res (tasks_per_node_of num_tasks total_nodes) ;;
  cfg <- of_res (assign_option cfg "POOL" "NUM_TASKS" (str_of_arg num_tasks)) ;;
  cfg <- of_res (assign_option cfg "POOL" "TASKS_PER_NODE" (str_int tasks_per_node)) ;;
  cfg <- of_res (assign_option cfg "POOL" "LOW_PRI_NODES" (str_int low_pri_nodes)) ;;
  cfg <- of_res (assign_option cfg "POOL" "DEDICATED_NODES" (str_int dedicated_nodes)) ;;
  vm_sku <- choose_vm_sku tasks_per_node vm_sku ;;
  cfg <- of_res (assign_option cfg "POOL" "VM_SIZE" vm_sku) ;;
  ret (cfg, tasks_per_node, vm_sku).

(** *** Vocabulary of the specification *)

(** The sizing rule as the specification words it:
    [max(floor(totalReplicas / totalNodes), 1)]. *)
Definition spec_tasks_per_node (total_replicas total_nodes : Z) : Z :=
  Z.max (total_replicas / total_nodes) 1.

(** Place of a VM size in the order
    E2s < E8s < E16s < E32s < E64s. *)
Definition vm_rank (vm_sku : string) : option nat :=
  if String.eqb vm_sku "Standard_E2s_v3" then Some 0%nat
  else if String.eqb vm_sku "Standard_E8s_v3" then Some 1%nat
  else if String.eqb vm_sku "Standard_E16s_v3" then Some 2%nat
  else if String.eqb vm_sku "Standard_E32s_v3" then Some 3%nat
  else if String.eqb vm_sku "Standard_E64s_v3" then Some 4%nat
  else None.

(** The messages of level [level] in a log. *)
Definition messages_at (level : Z) (l : list LogRecord) : list string :=
  map message (List.filter (fun r => levelno r =? level) l).

#[global] Arguments lookup_option : simpl never.
#[global] Arguments assign_option : simpl never.
#[global] Arguments format_mount : simpl never.
#[global] Arguments task_name_of : simpl never.
#[global] Arguments create_pool : simpl never.
#[global] Arguments add_job : simpl never.
#[global] Arguments add_task : simpl never.
#[global] Arguments try_delete : simpl never.
#[global] Arguments fan_out_step : simpl never.
#[global] Arguments fan_out : simpl never.
#[global] Arguments wait_for_tasks_to_complete : simpl never.

End Batch.

Import Batch.
Local Open Scope py_scope.

(** ** Sample states

    A configuration as [run_tasks] writes it, an instance as [__init__]
    leaves it, and an account of the service, used to run the model on
    concrete inputs. *)

Definition sample_config (platform publisher num_tasks : string)
  : gmap string (gmap string string) :=
  {[ "ACR" := {[ "PLATFORM" := platform; "SERVER" := "sims.azurecr.io";
                 "IMAGE_NAME" := "cartpole"; "IMAGE_VERSION" := "latest" ]};
     "BATCH" := {[ "ACCOUNT_NAME" := "simbatch" ]};
     "BONSAI" := {[ "BRAIN_NAME" := "'balance'" ]};
     "STORAGE" := {[ "ACCOUNT_NAME" := "simstore";
                     "URL" := "https://simstore.file.core.windows.net/logs";
                     "ACCOUNT_KEY" := "k" ]};
     "POOL" := {[ "POOL_ID" := "'cartpolepool10'"; "VM_SIZE" := "Standard_E8s_v3";
                  "TASKS_PER_NODE" := "10"; "LOW_PRI_NODES" := "9";
                  "DEDICATED_NODES" := "1"; "AGENT_SKU" := "batch.node.ubuntu 16.04";
                  "PUBLISHER" := publisher; "OFFER" := "ubuntu-server-container";
                  "SKU" := "16-04-lts"; "VERSION" := "latest";
                  "JOB_NAME" := "'cartpolejob'"; "NUM_TASKS" := num_tasks;
                  "TIME_DELAY_BETWEEN_SIMS" := "1" ]} ]}.

Definition sample_self (cfg : gmap string (gmap string string)) : Self :=
  {| config := cfg;
     image_name := "sims.azurecr.io/cartpole";
     image_version := "latest";
     registry := {| registry_server := "sims.azurecr.io"; user_name := "sims";
                    password := "p" |};
     image_ref_to_use := {| publisher := "microsoft-azure-batch";
                            offer := "ubuntu-server-container";
                            sku := "16-04-lts"; version := "latest" |};
     workspace := Some "w"; access_key := Some "a";
     use_fileshare := false;
     mount_path := None; new_pool := None; pool_id := None;
     job_id := None; task_id := None |}.

Definition empty_backend (sched : string -> string -> Z -> TaskState) : Backend :=
  {| pools := []; jobs := []; schedule := sched; calls := [] |}.

(** 2020-01-02 13:01:02, in microseconds. *)
Definition sample_time : Z := (737425 * 86400 + 46862) * us_per_second.

Definition sample_world (b : Backend) : World :=
  {| clock := sample_time; stdin := []; stdout := []; log := []; service := b |}.

Definition sample_state (cfg : gmap string (gmap string string)) (b : Backend) : State :=
  {| self := sample_self cfg; world := sample_world b |}.

(** A world whose operator types [answers] at the prompts. *)
Definition console_world (answers : list string) : World :=
  {| clock := sample_time; stdin := answers; stdout := []; log := [];
     service := empty_backend (fun _ _ _ => active) |}.

(** The state a campaign of three tasks leaves behind on a backend
    that reports every task as completed. *)
Definition completed_job_state : State :=
  snd (batch_main None None false false None
         (sample_state (sample_config "linux" "microsoft-azure-batch" "3")
                       (empty_backend (fun _ _ _ => completed)))).

(** An account with the jobs [a], [b] and [c], of which [b] is already
    being deleted. *)
Definition three_jobs : Backend :=
  {| pools := [];
     jobs := [ {| cloud_job_id := "a"; cloud_job_pool := "p";
                  cloud_job_state := job_active; cloud_job_tasks := [] |};
               {| cloud_job_id := "b"; cloud_job_pool := "p";
                  cloud_job_state := job_deleting; cloud_job_tasks := [] |};
               {| cloud_job_id := "c"; cloud_job_pool := "p";
                  cloud_job_state := job_active; cloud_job_tasks := [] |} ];
     schedule := fun _ _ _ => active;
     calls := [] |}.

Definition three_jobs_state : State :=
  sample_state (sample_config "linux" "microsoft-azure-batch" "3") three_jobs.

(** A Windows campaign as [run_tasks] configures it when the platform
    is spelled [Windows]: [run_tasks] lower-cases the platform before it
    tests it and takes the publisher of the Windows image. *)
Definition windows_state : State :=
  sample_state (sample_config "Windows" "MicrosoftWindowsServer" "1")
               (empty_backend (fun _ _ _ => active)).

(** The container options of the tasks submitted by a trace. *)
Definition run_options (cs : list Call) : list string :=
  omap (fun c => match c with
                 | TaskAdd _ t => Some (container_run_options t)
                 | _ => None
                 end) cs.

(** The mount paths of the pools submitted by a trace. *)
Definition pool_mount_paths (cs : list Call) : list (list string) :=
  omap (fun c => match c with
                 | PoolAdd p =>
                     Some (map relative_mount_path (default [] (mount_configuration p)))
                 | _ => None
                 end) cs.

(** The record logged above 75 tasks per node, lines 572-576. *)
Definition density_warning (t : Z) : LogRecord :=
  LogRec INFO ("Running " +:+ str_int t
               +:+ " tasks per node, please check if VM Size is compatible").

(** The mount-path convention of the specification, keyed by the OS
    family: the relative mount path of the pool and the bind-mount
    argument of a task working in [dir]. *)
Definition spec_mount (windows : bool) (dir : string) : string * string :=
  if windows then ("S", "S:\:C:\" +:+ dir +:+ "\logs")
  else ("azfileshare", "/azfileshare/:/" +:+ dir +:+ "/logs").

(** Whether every task of job [j] is completed at time [t]. *)
Definition all_completed (b : Backend) (jid : string) (j : CloudJob) (t : Z) : bool :=
  forallb (fun task => TaskState_eqb (schedule b jid (task_param_id task) t) completed)
          (cloud_job_tasks j).


(** The sample configuration with the pool id written without quotes. *)
Definition unquoted_config : gmap string (gmap string string) :=
  match assign_option (sample_config "linux" "microsoft-azure-batch" "3")
          "POOL" "POOL_ID" "cartpolepool10" with
  | Ok cfg => cfg
  | Raise _ => ∅
  end.

(** What the tasks of a campaign have in common: everything but the id. *)
Definition task_shape (t : TaskAddParameter)
  : string * string * string * list (string * option string)
    * ElevationLevel * AutoUserScope :=
  (command_line t, task_image_name t, container_run_options t,
   environment_settings t, elevation_level t, scope t).

(** The container options of lines 337-349 in closed form. *)
Definition expected_options (pub : string) (fileshare : bool)
    (start_dir : option string) : string :=
  let dir := if truthy start_dir then default "" start_dir else "src" in
  let windows := String.eqb pub "MicrosoftWindowsServer" in
  let workdir_opt :=
    if windows then "-w C:\" +:+ dir +:+ "\" else "--workdir /" +:+ dir +:+ "/" in
  if fileshare then
    workdir_opt +:+ " --volume "
    +:+ (if windows then "S:\:C:\" +:+ dir +:+ "\logs"
         else "/azfileshare/:/" +:+ dir +:+ "/logs")
  else workdir_opt.

(** A campaign right after [create_pool] and [add_job]: the job has no
    task yet. *)
Definition empty_job_state : State :=
  snd ((create_pool true false ;; add_job None)%py
         (sample_state (sample_config "linux" "microsoft-azure-batch" "3")
                       (empty_backend (fun _ _ _ => active)))).

(** The state a campaign of three tasks leaves behind on a backend
    that never reports a task as completed. *)
Definition pending_job_state : State :=
  snd (batch_main None None false false None
         (sample_state (sample_config "linux" "microsoft-azure-batch" "3")
                       (empty_backend (fun _ _ _ => active)))).

(** ** Properties *)

(** *** Running the monad by hand *)

Ltac run :=
  unfold bind, try_except, ret, raise, gets, modify, of_res, io, setattr,
    getattr, datetime_now, time_sleep, print, client; cbn.

Ltac run_in H :=
  unfold bind, try_except, ret, raise, gets, modify, of_res, io, setattr,
    getattr, datetime_now, time_sleep, print, client in H; cbn in H.

(** *** True division below 2^53 *)

Lemma round_half_even_floor (a b s : Z) :
  0 <= a -> 0 < b -> 0 <= s -> b < 2 ^ (s + 1) ->
  round_half_even (a * 2 ^ s) b / 2 ^ s = a / b /\
  0 <= round_half_even (a * 2 ^ s) b < (a / b + 1) * 2 ^ s.
Proof.
  intros Ha Hb Hs Hlt.
  assert (Hp : 0 < 2 ^ s) by (apply Z.pow_pos_nonneg; lia).
  rewrite Z.pow_add_r in Hlt by lia. change (2 ^ 1) with 2 in Hlt.
  set (n := a / b).
  assert (Hn : n * b <= a < (n + 1) * b).
  { unfold n. pose proof (Z.mul_div_le a b Hb).
    pose proof (Z.mul_succ_div_gt a b Hb). lia. }
  assert (Hn0 : 0 <= n) by (unfold n; apply Z.div_pos; lia).
  set (p := a * 2 ^ s).
  assert (Hq : (p / b) * b <= p < (p / b + 1) * b).
  { pose proof (Z.mul_div_le p b Hb).
    pose proof (Z.mul_succ_div_gt p b Hb). lia. }
  assert (Hr : p mod b = p - (p / b) * b).
  { pose proof (Z.div_mod p b). lia. }
  assert (Hlow : n * 2 ^ s <= p / b).
  { apply Z.div_le_lower_bound; [lia|]. unfold p. nia. }
  assert (Hup : p <= (n + 1) * 2 ^ s * b - 2 ^ s).
  { unfold p. nia. }
  assert (Hm : n * 2 ^ s <= round_half_even p b < (n + 1) * 2 ^ s).
  { unfold round_half_even. rewrite Hr.
    destruct (Z.ltb_spec (2 * (p - p / b * b)) b).
    - split; [lia|]. apply Z.div_lt_upper_bound; [lia|]. nia.
    - assert (p / b + 1 < (n + 1) * 2 ^ s) by nia.
      destruct (Z.ltb_spec b (2 * (p - p / b * b))); [lia|].
      destruct (Z.even (p / b)); lia. }
  split.
  - symmetry. apply Z.div_unique with (r := round_half_even p b - n * 2 ^ s); lia.
  - nia.
Qed.

Lemma quot_log2_bounds (a b : Z) :
  1 <= a < 2 ^ 53 -> 1 <= b < 2 ^ 53 ->
  -53 <= quot_log2 a b <= 52 /\ b < 2 ^ (52 - quot_log2 a b + 1).
Proof.
  intros Ha Hb. unfold quot_log2.
  pose proof (Z.log2_spec a ltac:(lia)) as [Hla1 Hla2].
  pose proof (Z.log2_spec b ltac:(lia)) as [Hlb1 Hlb2].
  pose proof (Z.log2_nonneg a) as Hla0.
  pose proof (Z.log2_nonneg b) as Hlb0.
  assert (Hla : Z.log2 a < 53) by (apply Z.log2_lt_pow2; lia).
  assert (Hlb : Z.log2 b < 53) by (apply Z.log2_lt_pow2; lia).
  set (la := Z.log2 a) in *. set (lb := Z.log2 b) in *.
  destruct (Z.ltb_spec (a * 2 ^ lb) (b * 2 ^ la)) as [Hc|Hc].
  - split; [lia|].
    replace (52 - (la - lb - 1) + 1) with (Z.succ lb + (53 - la)) by lia.
    rewrite Z.pow_add_r by lia.
    assert (1 <= 2 ^ (53 - la)) by (pose proof (Z.pow_pos_nonneg 2 (53 - la)); lia).
    nia.
  - split; [lia|].
    replace (52 - (la - lb) + 1) with (53 + lb - la) by lia.
    assert (Hpl : 0 < 2 ^ la) by (apply Z.pow_pos_nonneg; lia).
    assert (Hpb : 0 < 2 ^ lb) by (apply Z.pow_pos_nonneg; lia).
    apply Z.mul_lt_mono_pos_r with (p := 2 ^ la); [lia|].
    rewrite <- Z.pow_add_r by lia.
    replace (53 + lb - la + la) with (53 + lb) by lia.
    rewrite Z.pow_add_r by lia. nia.
Qed.

(** Below 2^53 the float quotient, once truncated, is the integer
    quotient. *)
Lemma truediv_floor (a b : Z) :
  1 <= a < 2 ^ 53 -> 1 <= b < 2 ^ 53 ->
  exists x, truediv a b = Ok x /\ int_of_float x = a / b.
Proof.
  intros Ha Hb.
  destruct (quot_log2_bounds a b Ha Hb) as [Hk Hlt].
  unfold truediv.
  destruct (Z.eqb_spec b 0); [lia|].
  destruct (Z.eqb_spec a 0); [lia|].
  rewrite (Z.abs_eq a), (Z.abs_eq b) by lia.
  unfold truediv_pos.
  set (k := quot_log2 a b) in *. clearbody k.
  replace (Z.max (k - 52) (-1074)) with (k - 52) by lia.
  replace (Z.max (- (k - 52)) 0) with (52 - k) by lia.
  replace (Z.max (k - 52) 0) with 0 by lia.
  change (2 ^ 0) with 1. rewrite !Z.mul_1_r.
  destruct (round_half_even_floor a b (52 - k)) as [Hdiv [Hm0 Hm]]; try lia.
  set (m := round_half_even (a * 2 ^ (52 - k)) b) in *. clearbody m.
  assert (Hs : 2 ^ (52 - k) <= 2 ^ 105) by (apply Z.pow_le_mono_r; lia).
  assert (Hp : 0 < 2 ^ (52 - k)) by (apply Z.pow_pos_nonneg; lia).
  assert (Hn : a / b + 1 <= 2 ^ 53).
  { assert (a / b <= a).
    { apply Z.div_le_upper_bound; [lia|].
      assert (1 * a <= b * a) by (apply Z.mul_le_mono_nonneg_r; lia). lia. }
    lia. }
  assert (Hbig : m < 2 ^ 1024).
  { assert (2 ^ 53 * 2 ^ 105 < 2 ^ 1024) by (vm_compute; reflexivity). nia. }
  destruct (Z.leb_spec (2 ^ 1024) m); [lia|].
  replace (Z.sgn a * Z.sgn b <? 0) with false
    by (rewrite (Z.sgn_pos a), (Z.sgn_pos b) by lia; reflexivity).
  eexists; split; [reflexivity|].
  unfold int_of_float; simpl mant; simpl expo.
  destruct (Z.leb_spec 0 (k - 52)).
  - assert (k = 52) by lia. subst k.
    change (2 ^ (52 - 52)) with 1 in *. rewrite Z.div_1_r in Hdiv.
    change (2 ^ (52 - 52)) with 1. lia.
  - replace (- (k - 52)) with (52 - k) by lia.
    rewrite Z.quot_div_nonneg by lia. exact Hdiv.
Qed.

(** On that range line 550 computes the rule of the specification. *)
Lemma tasks_per_node_floor (n nodes : Z) :
  1 <= n < 2 ^ 53 -> 1 <= nodes < 2 ^ 53 ->
  tasks_per_node_of (ArgInt n) nodes = Ok (spec_tasks_per_node n nodes).
Proof.
  intros Hn Hnodes. unfold tasks_per_node_of, spec_tasks_per_node. cbn.
  destruct (truediv_floor n nodes Hn Hnodes) as [x [-> ->]]. reflexivity.
Qed.

(** *** Sizing policy

    C3.  Line 550 divides with [/], a float division, and truncates.
    For 9007199254740993 replicas (2^53 + 1) on a single node the float
    quotient is 2^53, so [tasks_per_node] is 9007199254740992, one less
    than [max(floor(totalReplicas / totalNodes), 1)], whether the count
    arrives as an integer or as a string.  ([tasks_per_node_floor] shows
    that both agree below 2^53.) *)
Theorem tasks_per_node_float_rounding :
  tasks_per_node_of (ArgInt 9007199254740993) (0 + 1) = Ok 9007199254740992 /\
  tasks_per_node_of (ArgStr "9007199254740993") (0 + 1) = Ok 9007199254740992 /\
  spec_tasks_per_node 9007199254740993 (0 + 1) = 9007199254740993 /\
  1 <= 9007199254740993 /\ 1 <= 0 + 1.
Proof. vm_compute. repeat split; congruence. Qed.

(** The ladder of lines 562-576 in closed form. *)
Lemma select_vm_sku_run (t : Z) (v : string) (w : World) :
  select_vm_sku t v w =
  (Ok (if t <=? 8 then "Standard_E2s_v3"
       else if t <=? 16 then "Standard_E8s_v3"
       else if t <=? 32 then "Standard_E16s_v3"
       else if t <=? 75 then "Standard_E32s_v3"
       else "Standard_E64s_v3"),
   if t <=? 75 then w else set_log (log w ++ [density_warning t]) w).
Proof.
  unfold select_vm_sku.
  destruct (Z.leb_spec t 8); [destruct (Z.leb_spec t 75); [reflexivity|lia]|].
  destruct (Z.leb_spec t 16); [destruct (Z.leb_spec t 75); [reflexivity|lia]|].
  destruct (Z.leb_spec t 32); [destruct (Z.leb_spec t 75); [reflexivity|lia]|].
  destruct (Z.leb_spec t 75); [reflexivity|].
  destruct (Z.ltb_spec 75 t); [reflexivity|lia].
Qed.

(** C5.  The VM size chosen by the ladder never shrinks when the
    number of tasks per node grows: for [1 <= t1 <= t2] the size chosen
    for [t1] comes no later than the one chosen for [t2] in the order
    E2s < E8s < E16s < E32s < E64s. *)
Theorem vm_class_monotone (t1 t2 : Z) (v1 v2 : string) (w1 w2 : World) :
  1 <= t1 -> t1 <= t2 ->
  exists c1 c2 r1 r2,
    fst (select_vm_sku t1 v1 w1) = Ok c1 /\
    fst (select_vm_sku t2 v2 w2) = Ok c2 /\
    vm_rank c1 = Some r1 /\ vm_rank c2 = Some r2 /\ (r1 <= r2)%nat.
Proof.
  intros H1 H12. rewrite !select_vm_sku_run. cbn [fst].
  destruct (Z.leb_spec t1 8), (Z.leb_spec t1 16), (Z.leb_spec t1 32),
    (Z.leb_spec t1 75), (Z.leb_spec t2 8), (Z.leb_spec t2 16),
    (Z.leb_spec t2 32), (Z.leb_spec t2 75); try lia;
    do 4 eexists; (split; [reflexivity|]); (split; [reflexivity|]);
    (split; [reflexivity|]); (split; [reflexivity|]); lia.
Qed.

(** Without a [vm_sku] argument the operator is asked; the answers
    [none] and the empty line, in any case, lead to the ladder. *)
Lemma choose_vm_sku_unnamed (t : Z) (vm_sku : option string)
    (answer : string) (rest : list string) (w : World) :
  truthy vm_sku = false -> stdin w = answer :: rest ->
  lower answer = "none" \/ lower answer = "" ->
  exists w0,
    choose_vm_sku t vm_sku w = select_vm_sku t answer w0 /\ log w0 = log w.
Proof.
  intros Hv Hin Hans. unfold choose_vm_sku. rewrite Hv.
  unfold input. run. rewrite Hin. cbn.
  assert (((lower answer =? "none")%string || (lower answer =? "")%string)%bool = true) as ->.
  { destruct Hans as [-> | ->]; reflexivity. }
  eexists. split; [reflexivity|]. reflexivity.
Qed.

(** C4.  When the caller names no VM size, the size is a step function
    of [tasks_per_node] with steps at 8, 16, 32 and 75, each step
    leading to a larger size; above 75 the largest size is chosen, a
    message about the density is logged and nothing is raised.  For 100
    replicas on 1 dedicated and 9 low-priority nodes [tasks_per_node]
    is 10 and the size is the one for at most 16; for 1000 replicas it
    is 100 and the size is the largest, with the message. *)
Theorem vm_class_step_function :
  (forall (t : Z) (vm_sku : option string) (answer : string)
          (rest : list string) (w : World),
      truthy vm_sku = false -> stdin w = answer :: rest ->
      lower answer = "none" \/ lower answer = "" ->
      exists cls w',
        choose_vm_sku t vm_sku w = (Ok cls, w') /\
        (t <= 8 -> cls = "Standard_E2s_v3") /\
        (8 < t <= 16 -> cls = "Standard_E8s_v3") /\
        (16 < t <= 32 -> cls = "Standard_E16s_v3") /\
        (32 < t <= 75 -> cls = "Standard_E32s_v3") /\
        (75 < t -> cls = "Standard_E64s_v3") /\
        log w' = log w ++ (if 75 <? t then [density_warning t] else [])) /\
  (vm_rank "Standard_E2s_v3" = Some 0 /\ vm_rank "Standard_E8s_v3" = Some 1 /\
   vm_rank "Standard_E16s_v3" = Some 2 /\ vm_rank "Standard_E32s_v3" = Some 3 /\
   vm_rank "Standard_E64s_v3" = Some 4)%nat /\
  match run_tasks_sizing (sample_config "linux" "microsoft-azure-batch" "0")
          (Some "python main.py") (ArgInt 100) 9 1 None (console_world ["None"]) with
  | (Ok (_, tasks_per_node, cls), w') =>
      tasks_per_node = 10 /\ cls = "Standard_E8s_v3" /\ log w' = []
  | _ => False
  end /\
  match run_tasks_sizing (sample_config "linux" "microsoft-azure-batch" "0")
          (Some "python main.py") (ArgInt 1000) 9 1 None (console_world ["None"]) with
  | (Ok (_, tasks_per_node, cls), w') =>
      tasks_per_node = 100 /\ cls = "Standard_E64s_v3" /\
      log w' = [LogRec INFO "Running 100 tasks per node, please check if VM Size is compatible"]
  | _ => False
  end.
Proof.
  split; [|split; [|split]].
  - intros t vm_sku answer rest w Hv Hin Hans.
    destruct (choose_vm_sku_unnamed t vm_sku answer rest w Hv Hin Hans)
      as [w0 [-> Hlog]].
    rewrite select_vm_sku_run. do 2 eexists. split; [reflexivity|].
    destruct (Z.leb_spec t 8), (Z.leb_spec t 16), (Z.leb_spec t 32),
      (Z.leb_spec t 75), (Z.ltb_spec 75 t); try lia;
      cbn; rewrite ?Hlog, ?app_nil_r; repeat split; intros; try lia; reflexivity.
  - repeat split.
  - vm_compute. repeat split.
  - vm_compute. repeat split.
Qed.

Lemma vm_class_step_function_witness :
  exists cls w',
    choose_vm_sku 100 None (console_world ["NONE"]) = (Ok cls, w') /\
    cls = "Standard_E64s_v3".
Proof.
  destruct (proj1 vm_class_step_function 100 None "NONE" [] (console_world ["NONE"]))
    as [cls [w' [Hrun [_ [_ [_ [_ [Hbig _]]]]]]]].
  - reflexivity.
  - reflexivity.
  - left. reflexivity.
  - exists cls, w'. split; [exact Hrun | apply Hbig; lia].
Defined.

Lemma vm_class_monotone_witness :
  exists c1 c2 r1 r2,
    fst (select_vm_sku 10 "" (console_world [])) = Ok c1 /\
    fst (select_vm_sku 100 "" (console_world [])) = Ok c2 /\
    vm_rank c1 = Some r1 /\ vm_rank c2 = Some r2 /\ (r1 <= r2)%nat.
Proof.
  apply (vm_class_monotone 10 100 "" "" (console_world []) (console_world [])); lia.
Defined.

(** *** Completion barrier *)

(** The barrier stops before its loop and leaves the state as it was:
    at line 381 when the expiration is no [datetime], and else at the
    call of [logger.info] with [end]. *)
Lemma wait_for_tasks_run (timeout : Z) (s : State) :
  wait_for_tasks_to_complete timeout s
  = (Raise match datetime_add (clock (world s)) timeout with
           | Ok _ => TypeError "_log() got an unexpected keyword argument 'end'"
           | Raise e => e
           end, s).
Proof.
  destruct s as [o w]. unfold wait_for_tasks_to_complete. run.
  destruct (datetime_add (clock w) timeout); reflexivity.
Qed.

Lemma datetime_add_in_range (dt td : Z) :
  datetime_min <= dt + td <= datetime_max -> datetime_add dt td = Ok (dt + td).
Proof.
  intros [Hmin Hmax]. unfold datetime_add. cbv zeta.
  destruct (Z.leb_spec datetime_min (dt + td)); [|lia].
  destruct (Z.leb_spec (dt + td) datetime_max); [|lia]. reflexivity.
Qed.

Lemma datetime_add_out_of_range (dt td : Z) :
  ~ datetime_min <= dt + td <= datetime_max -> datetime_add dt td = Raise OverflowError.
Proof.
  intros Hout. unfold datetime_add. cbv zeta.
  destruct (Z.leb_spec datetime_min (dt + td)); [|reflexivity].
  destruct (Z.leb_spec (dt + td) datetime_max); [lia|reflexivity].
Qed.

(** C2, as the code has it.  Whatever the state of the backend, for a
    timeout that leaves the expiration of line 381 a [datetime] (a year
    from 1 to 9999) [wait_for_tasks_to_complete] raises [TypeError]
    from its call of [logger.info(..., end="")]: no task has been
    listed by then, nothing else has changed, and the barrier neither
    returns nor raises the error it documents for a timeout. *)
Theorem wait_for_tasks_raises_TypeError (timeout : Z) (s : State) :
  datetime_min <= clock (world s) + timeout <= datetime_max ->
  let r := wait_for_tasks_to_complete timeout s in
  (exists msg, fst r = Raise (TypeError msg)) /\
  task_lists (calls (service (world (snd r))))
    = task_lists (calls (service (world s))) /\
  snd r = s /\
  (forall v, fst r <> Ok v) /\
  (forall msg, fst r <> Raise (RuntimeError msg)).
Proof.
  intros Hrange. cbv zeta.
  rewrite wait_for_tasks_run, (datetime_add_in_range _ _ Hrange). cbn [fst snd].
  split; [eexists; reflexivity|]. repeat split; intros; discriminate.
Qed.

Lemma wait_for_tasks_raises_TypeError_witness :
  let s := completed_job_state in
  let r := wait_for_tasks_to_complete (timedelta 2 0) s in
  (exists msg, fst r = Raise (TypeError msg)) /\
  task_lists (calls (service (world (snd r))))
    = task_lists (calls (service (world s))) /\
  snd r = s /\
  (forall v, fst r <> Ok v) /\
  (forall msg, fst r <> Raise (RuntimeError msg)).
Proof.
  cbv zeta.
  apply (wait_for_tasks_raises_TypeError (timedelta 2 0) completed_job_state).
  vm_compute. split; discriminate.
Defined.

(** C2, as the claim has it, for every timeout: with
    [datetime.timedelta(days=3000000)], which is 72000000 hours, the
    expiration would lie in the year 10234; line 381 raises
    [OverflowError] and the call of [logger.info] is not reached, so
    the exception is no [TypeError].  Also then no task is listed and
    the state is as before. *)
Theorem wait_for_tasks_OverflowError :
  let s := completed_job_state in
  let timeout := timedelta 72000000 0 in
  let r := wait_for_tasks_to_complete timeout s in
  timeout = 3000000 * us_per_day /\
  datetime_min <= clock (world s) <= datetime_max /\
  fst r = Raise OverflowError /\
  (forall msg, fst r <> Raise (TypeError msg)) /\
  snd r = s.
Proof.
  cbv zeta. rewrite wait_for_tasks_run. cbn [fst snd].
  rewrite datetime_add_out_of_range.
  - split; [vm_compute; reflexivity|].
    split; [vm_compute; split; discriminate|].
    split; [reflexivity|]. split; [intros msg; discriminate | reflexivity].
  - vm_compute. intros [_ H]. apply H. reflexivity.
Qed.

(** The loop by itself leaves within [wait_fuel] rounds, since every
    round that does not return sleeps for a second. *)
Lemma wait_loop_fuel (fuel : nat) (expiration timeout : Z) (s : State) :
  (0 < fuel)%nat ->
  expiration - clock (world s) <= (Z.of_nat fuel - 1) * us_per_second ->
  fst (wait_loop fuel expiration timeout s) <> Ok None.
Proof.
  revert s. induction fuel as [|fuel IH]; intros s Hpos Hle; [lia|].
  destruct s as [o w]. simpl in Hle.
  cbn [wait_loop]. unfold bind at 1. run.
  destruct (Z.ltb_spec (clock w) expiration) as [Hlt|Hge]; run; [|discriminate].
  destruct (job_id o) as [jid|]; run; [|discriminate].
  unfold task_list; cbn.
  destruct (find_job jid _) as [j|]; cbn; [|discriminate].
  destruct (List.filter _ _) as [|t ts]; cbn; [discriminate|].
  apply IH; cbn; unfold us_per_second in *; lia.
Qed.

(** The barrier ends: counted from the expiration of line 381, the
    loop returns or raises within one round per second of the timeout
    and two more. *)
Lemma wait_fuel_enough (timeout : Z) (s : State) :
  fst (wait_loop (wait_fuel timeout) (clock (world s) + timeout) timeout s)
  <> Ok None.
Proof.
  apply wait_loop_fuel; unfold wait_fuel; [lia|].
  unfold us_per_second.
  destruct (Z.le_gt_cases 0 timeout) as [H|H].
  - pose proof (Z.mul_succ_div_gt timeout 1000000 ltac:(lia)).
    assert (0 <= timeout / 1000000) by (apply Z.div_pos; lia). lia.
  - lia.
Qed.

(** C1.  On a job whose three tasks are all completed, with the
    timeout of two hours that [batch_main] passes, the barrier raises
    [TypeError] where the claim has it return success; the loop behind
    the failing call would return [True] at its first poll. *)
Theorem barrier_fails_on_completed_job :
  let s := completed_job_state in
  let timeout := timedelta 2 0 in
  match job_id (self s) with
  | Some jid =>
      fst (task_list jid (clock (world s)) (service (world s)))
      = Ok [ {| cloud_task_id := "job_number0_cartpolejob"; state := completed |};
             {| cloud_task_id := "job_number1_cartpolejob"; state := completed |};
             {| cloud_task_id := "job_number2_cartpolejob"; state := completed |} ]
  | None => False
  end /\
  fst (wait_for_tasks_to_complete timeout s)
  = Raise (TypeError "_log() got an unexpected keyword argument 'end'") /\
  fst (wait_loop (wait_fuel timeout) (clock (world s) + timeout) timeout s)
  = Ok (Some true).
Proof.
  cbv zeta. split; [|split].
  - vm_compute. reflexivity.
  - vm_compute. reflexivity.
  - vm_compute. reflexivity.
Qed.

(** *** Pool provisioning *)

Lemma has_pool_added (pid : string) (p : PoolAddParameter)
    (ps : list PoolAddParameter) (b : Backend) :
  pool_param_id p = pid -> has_pool pid (set_pools (ps ++ [p]) b) = true.
Proof.
  intros <-. unfold has_pool. cbn. rewrite existsb_app. cbn.
  rewrite String.eqb_refl. apply orb_true_iff. right. reflexivity.
Qed.

Ltac case_config H :=
  repeat match type of H with
    | context [lookup_option ?c ?s ?k] =>
        let E := fresh "Ecfg" in
        destruct (lookup_option c s k) eqn:E; cbn in H; try discriminate H
    | context [int_of_str ?v] =>
        let E := fresh "Eint" in
        destruct (int_of_str v) eqn:E; cbn in H; try discriminate H
    end.


Ltac replay :=
  repeat (cbn; match goal with
    | H : lookup_option ?c ?s ?k = _ |- context [lookup_option ?c ?s ?k] => rewrite H
    | H : int_of_str ?v = _ |- context [int_of_str ?v] => rewrite H
    end); cbn.

Lemma has_pool_record_call (pid : string) (c : Call) (b : Backend) :
  has_pool pid (record_call c b) = has_pool pid b.
Proof. reflexivity. Qed.

(** C6.  Two calls of [create_pool] for the same pool id with
    [skip_if_exists=True], starting without the pool: the first call
    asks whether the pool exists and creates it, the second one only
    asks, so that exactly one pool is submitted; the second call
    changes neither pools nor jobs, raises nothing, and both calls
    leave the same [pool_id]. *)
Theorem create_pool_twice (fileshare : bool) (s s1 : State) (raw : string) :
  lookup_option (config (self s)) "POOL" "POOL_ID" = Ok raw ->
  has_pool (strip_quote raw) (service (world s)) = false ->
  create_pool true fileshare s = (Ok tt, s1) ->
  exists s2 pool,
    create_pool true fileshare s1 = (Ok tt, s2) /\
    pool_param_id pool = strip_quote raw /\
    calls (service (world s1))
      = calls (service (world s)) ++ [PoolExists (strip_quote raw); PoolAdd pool] /\
    calls (service (world s2))
      = calls (service (world s1)) ++ [PoolExists (strip_quote raw)] /\
    pool_adds (calls (service (world s2)))
      = pool_adds (calls (service (world s))) ++ [strip_quote raw] /\
    pools (service (world s2)) = pools (service (world s1)) /\
    jobs (service (world s2)) = jobs (service (world s1)) /\
    pool_id (self s1) = Some (strip_quote raw) /\
    pool_id (self s2) = Some (strip_quote raw).
Proof.
  intros Hraw Habsent H1. destruct s as [o w]. cbn in Hraw, Habsent.
  unfold create_pool, config_int, config_get in H1. run_in H1.
  rewrite Hraw in H1. cbn in H1.
  case_config H1.
  destruct fileshare; cbn in H1; case_config H1;
    unfold logger_info, logger_warning, logger_log, pool_exists, pool_add in H1;
    run_in H1; rewrite has_pool_record_call, Habsent in H1; cbn in H1;
    rewrite !has_pool_record_call, Habsent in H1; cbn in H1;
    injection H1 as <-;
    unfold create_pool, config_int, config_get; run; replay;
    unfold logger_info, logger_warning, logger_log, pool_exists; run;
    rewrite has_pool_record_call, has_pool_added by reflexivity; cbn;
    do 2 eexists; (split; [reflexivity|]); cbn;
    unfold pool_adds; rewrite !omap_app; cbn; rewrite !app_nil_r, <- !app_assoc;
    repeat split; reflexivity.
Qed.

Lemma create_pool_twice_witness :
  let s := sample_state (sample_config "linux" "microsoft-azure-batch" "3")
                        (empty_backend (fun _ _ _ => active)) in
  let s1 := snd (create_pool true true s) in
  exists s2 pool,
    create_pool true true s1 = (Ok tt, s2) /\
    pool_param_id pool = "cartpolepool10" /\
    calls (service (world s1)) = [PoolExists "cartpolepool10"; PoolAdd pool] /\
    calls (service (world s2))
      = calls (service (world s1)) ++ [PoolExists "cartpolepool10"] /\
    pool_adds (calls (service (world s2))) = ["cartpolepool10"] /\
    pools (service (world s2)) = pools (service (world s1)) /\
    jobs (service (world s2)) = jobs (service (world s1)) /\
    pool_id (self s1) = Some "cartpolepool10" /\
    pool_id (self s2) = Some "cartpolepool10".
Proof.
  cbv zeta.
  apply (create_pool_twice true
           (sample_state (sample_config "linux" "microsoft-azure-batch" "3")
                         (empty_backend (fun _ _ _ => active)))
           _ "'cartpolepool10'");
    vm_compute; reflexivity.
Defined.

(** When the pool is already there, the first call creates nothing
    either. *)
Lemma create_pool_reuses (fileshare : bool) (s s1 : State) (raw : string) :
  lookup_option (config (self s)) "POOL" "POOL_ID" = Ok raw ->
  has_pool (strip_quote raw) (service (world s)) = true ->
  create_pool true fileshare s = (Ok tt, s1) ->
  calls (service (world s1))
    = calls (service (world s)) ++ [PoolExists (strip_quote raw)] /\
  pools (service (world s1)) = pools (service (world s)).
Proof.
  intros Hraw Hthere H1. destruct s as [o w]. cbn in Hraw, Hthere.
  unfold create_pool, config_int, config_get in H1. run_in H1.
  rewrite Hraw in H1. cbn in H1.
  case_config H1.
  destruct fileshare; cbn in H1; case_config H1;
    unfold logger_info, logger_warning, logger_log, pool_exists, pool_add in H1;
    run_in H1; rewrite has_pool_record_call, Hthere in H1; cbn in H1;
    injection H1 as <-; cbn; split; reflexivity.
Qed.

(** *** Task fan-out *)

Lemma length_append (a s : string) :
  String.length (a +:+ s) = (String.length a + String.length s)%nat.
Proof. induction a as [|c a IH]; simpl; [reflexivity | f_equal; exact IH]. Qed.

Lemma append_cancel_r (a b s : string) : a +:+ s = b +:+ s -> a = b.
Proof.
  revert b. induction a as [|c a IH]; intros [|c' b] H.
  - reflexivity.
  - apply (f_equal String.length) in H. rewrite !length_append in H. simpl in H. lia.
  - apply (f_equal String.length) in H. rewrite !length_append in H. simpl in H. lia.
  - cbn in H. injection H as -> H. f_equal. now apply IH.
Qed.

Lemma str_int_inj (a b : Z) : str_int a = str_int b -> a = b.
Proof.
  unfold str_int. intros H. apply to_int_inj.
  apply (f_equal NilEmpty.int_of_string) in H.
  rewrite !NilEmpty.isi in H. congruence.
Qed.

Lemma task_name_of_inj (i j : Z) (campaign : string) :
  task_name_of i campaign = task_name_of j campaign -> i = j.
Proof.
  unfold task_name_of. cbn. intros H.
  repeat (injection H as H).
  change (str_int i +:+ ("_" +:+ campaign) = str_int j +:+ ("_" +:+ campaign)) in H.
  apply append_cancel_r in H. now apply str_int_inj.
Qed.

Lemma find_job_id (jid : string) (j : CloudJob) (b : Backend) :
  find_job jid b = Some j -> cloud_job_id j = jid.
Proof.
  unfold find_job. intros H. apply find_some in H as [_ H].
  now apply String.eqb_eq in H.
Qed.

Lemma find_job_map (f : CloudJob -> CloudJob) (jid : string) (j : CloudJob)
    (b b' : Backend) :
  (forall x, cloud_job_id (f x) = cloud_job_id x) ->
  jobs b' = map f (jobs b) ->
  find_job jid b = Some j -> find_job jid b' = Some (f j).
Proof.
  intros Hid Hjobs. unfold find_job. rewrite Hjobs. clear Hjobs.
  induction (jobs b) as [|x xs IH]; cbn; [discriminate|].
  rewrite Hid. destruct (cloud_job_id x =? jid)%string.
  - now intros [= ->].
  - exact IH.
Qed.

Lemma append_task_id (jid : string) (t : TaskAddParameter) (x : CloudJob) :
  cloud_job_id (append_task jid t x) = cloud_job_id x.
Proof. unfold append_task. now destruct (cloud_job_id x =? jid)%string. Qed.

Lemma has_task_append (jid tid : string) (t : TaskAddParameter) (j : CloudJob) :
  cloud_job_id j = jid ->
  has_task tid (append_task jid t j)
  = (has_task tid j || (task_param_id t =? tid)%string)%bool.
Proof.
  intros Hid. unfold append_task, has_task. rewrite <- Hid, String.eqb_refl. cbn.
  rewrite existsb_app. cbn. now rewrite orb_false_r.
Qed.

Lemma append_task_state (jid : string) (t : TaskAddParameter) (j : CloudJob) :
  cloud_job_state (append_task jid t j) = cloud_job_state j.
Proof. unfold append_task. now destruct (cloud_job_id j =? jid)%string. Qed.

Lemma add_task_run (cmd name : string) (sd : option string) (s : State)
    (pub pid jid : string) (j : CloudJob) :
  lookup_option (config (self s)) "POOL" "PUBLISHER" = Ok pub ->
  pool_id (self s) = Some pid ->
  job_id (self s) = Some jid ->
  find_job jid (service (world s)) = Some j ->
  cloud_job_state j = job_active ->
  has_task name j = false ->
  exists s' t,
    add_task cmd name sd s = (Ok tt, s') /\
    task_param_id t = name /\
    config (self s') = config (self s) /\
    pool_id (self s') = Some pid /\
    job_id (self s') = Some jid /\
    calls (service (world s')) = calls (service (world s)) ++ [TaskAdd jid t] /\
    find_job jid (service (world s')) = Some (append_task jid t j) /\
    container_run_options t
    = (let dir := if truthy sd then default "" sd else "src" in
       let windows := String.eqb pub "MicrosoftWindowsServer" in
       let workdir_opt :=
         if windows then "-w C:\" +:+ dir +:+ "\" else "--workdir /" +:+ dir +:+ "/" in
       if use_fileshare (self s) then
         workdir_opt +:+ " --volume "
         +:+ (if windows then "S:\:C:\" +:+ dir +:+ "\logs"
              else "/azfileshare/:/" +:+ dir +:+ "/logs")
       else workdir_opt).
Proof.
  intros Hpub Hpid Hjid Hjob Hact Hnew. destruct s as [o w].
  cbn in Hpub, Hpid, Hjid, Hjob.
  unfold add_task, config_get. run. replay.
  destruct (use_fileshare o); run; replay; rewrite Hpid; cbn;
    unfold logger_debug, logger_log; run; rewrite Hjid; cbn;
    unfold task_add; cbn;
    change (find_job jid (record_call ?c (service w))) with (find_job jid (service w));
    rewrite Hjob, Hact, Hnew; cbn;
    do 2 eexists; (split; [reflexivity|]); cbn;
    repeat split; try reflexivity; try assumption;
    apply (find_job_map (append_task jid _) jid j (service w));
    auto using append_task_id.
Qed.

Lemma range_NoDup (n : Z) : List.NoDup (range n).
Proof.
  unfold range. apply Finite.Injective_map_NoDup.
  - intros a b H. lia.
  - apply List.seq_NoDup.
Qed.

Lemma range_length (n : Z) : 0 <= n -> Z.of_nat (List.length (range n)) = n.
Proof. intros H. unfold range. rewrite List.length_map, List.length_seq. lia. Qed.

Section FanOut.

Variables (cfg : gmap string (gmap string string)).
Variables (pub pid jid delay_raw name_raw : string) (delay : Z).
Variable workdir : option string.

Hypothesis Hpub : lookup_option cfg "POOL" "PUBLISHER" = Ok pub.
Hypothesis Hdelay : lookup_option cfg "POOL" "TIME_DELAY_BETWEEN_SIMS" = Ok delay_raw.
Hypothesis Hdelay_int : int_of_str delay_raw = Ok delay.
Hypothesis Hname : lookup_option cfg "POOL" "JOB_NAME" = Ok name_raw.

Let campaign := strip_quote name_raw.

Lemma fan_out_step_run (command : option string) (i : Z) (s : State) (j : CloudJob) :
  config (self s) = cfg ->
  pool_id (self s) = Some pid ->
  job_id (self s) = Some jid ->
  find_job jid (service (world s)) = Some j ->
  cloud_job_state j = job_active ->
  has_task (task_name_of i campaign) j = false ->
  exists c s' t,
    fan_out_step workdir command i s = (Ok c, s') /\
    task_param_id t = task_name_of i campaign /\
    config (self s') = cfg /\
    pool_id (self s') = Some pid /\
    job_id (self s') = Some jid /\
    calls (service (world s')) = calls (service (world s)) ++ [TaskAdd jid t] /\
    find_job jid (service (world s')) = Some (append_task jid t j).
Proof.
  intros Hcfg Hpid Hjid Hjob Hact Hnew.
  unfold fan_out_step, config_int, config_get. run. rewrite Hcfg. replay.
  unfold logger_debug, logger_log. run. rewrite Hcfg. replay.
  match goal with
  | |- context [add_task ?c ?n ?d ?st] =>
      destruct (add_task_run c n d st pub pid jid j)
        as (s' & t & Hrun & Ht & Hc' & Hp' & Hj' & Hcalls & Hfind & _)
  end; cbn; try assumption.
  - rewrite Hcfg. exact Hpub.
  - rewrite Hrun. cbn.
    exists (if truthy command then command else Some "python main.py"), s', t.
    cbn in Hc', Hcalls, Hfind. repeat split; try assumption. congruence.
Qed.

Lemma fan_out_loop (indices : list Z) :
  forall (command : option string) (s : State) (j : CloudJob),
    config (self s) = cfg ->
    pool_id (self s) = Some pid ->
    job_id (self s) = Some jid ->
    find_job jid (service (world s)) = Some j ->
    cloud_job_state j = job_active ->
    List.NoDup indices ->
    (forall i, In i indices -> has_task (task_name_of i campaign) j = false) ->
    exists c s',
      for_fold indices command (fan_out_step workdir) s = (Ok c, s') /\
      config (self s') = cfg /\
      job_id (self s') = Some jid /\
      task_adds (calls (service (world s')))
      = task_adds (calls (service (world s)))
        ++ map (fun i => (jid, task_name_of i campaign)) indices.
Proof.
  induction indices as [|i rest IH]; intros command s j Hcfg Hpid Hjid Hjob Hact Hnd Hnew.
  - exists command, s. cbn. rewrite app_nil_r. auto.
  - destruct (fan_out_step_run command i s j)
      as (c & s1 & t & Hrun & Ht & Hc1 & Hp1 & Hj1 & Hcalls & Hfind);
      auto using in_eq.
    inversion Hnd as [|? ? Hnotin Hnd']; subst.
    destruct (IH c s1 (append_task jid t j)) as (c' & s' & Hrest & Hc' & Hj' & Hadds); auto.
    + now rewrite append_task_state.
    + intros i' Hin. rewrite has_task_append by eauto using find_job_id.
      rewrite Hnew by now right. cbn. rewrite Ht.
      apply String.eqb_neq. intros Heq. apply task_name_of_inj in Heq. congruence.
    + exists c', s'. cbn [for_fold]. unfold bind at 1. rewrite Hrun.
      split; [exact Hrest|]. split; [exact Hc'|]. split; [exact Hj'|].
      rewrite Hadds, Hcalls. unfold task_adds. rewrite omap_app. cbn.
      rewrite Ht, <- app_assoc. reflexivity.
Qed.

End FanOut.

Lemma find_job_record_call (jid : string) (c : Call) (b : Backend) :
  find_job jid (record_call c b) = find_job jid b.
Proof. reflexivity. Qed.

Lemma create_pool_keeps (skip fileshare : bool) (s s1 : State) :
  create_pool skip fileshare s = (Ok tt, s1) ->
  config (self s1) = config (self s) /\
  job_id (self s1) = job_id (self s) /\
  task_adds (calls (service (world s1))) = task_adds (calls (service (world s))) /\
  jobs (service (world s1)) = jobs (service (world s)) /\
  exists pid, pool_id (self s1) = Some pid.
Proof.
  intros H1. destruct s as [o w].
  unfold create_pool, config_int, config_get in H1. run_in H1.
  case_config H1.
  destruct fileshare, skip; cbn in H1; case_config H1;
    unfold logger_info, logger_warning, logger_log, pool_exists, pool_add in H1;
    run_in H1; rewrite ?has_pool_record_call in H1;
    destruct (has_pool _ _) eqn:Hp; cbn in H1;
    rewrite ?has_pool_record_call, ?Hp in H1; cbn in H1; try discriminate H1;
    injection H1 as <-; cbn;
    unfold task_adds; rewrite ?omap_app; cbn; rewrite ?app_nil_r;
    repeat split; eauto.
Qed.

Lemma find_job_new (jid : string) (j : CloudJob) (b b' : Backend) :
  find_job jid b = None -> cloud_job_id j = jid ->
  jobs b' = jobs b ++ [j] -> find_job jid b' = Some j.
Proof.
  unfold find_job. intros Hnone Hid ->.
  induction (jobs b) as [|x xs IH]; cbn in *.
  - rewrite Hid, String.eqb_refl. reflexivity.
  - destruct (cloud_job_id x =? jid)%string; [discriminate|]. auto.
Qed.

Lemma add_job_run (s s1 : State) :
  add_job None s = (Ok tt, s1) ->
  exists jid pid,
    config (self s1) = config (self s) /\
    job_id (self s1) = Some jid /\
    pool_id (self s1) = Some pid /\
    task_adds (calls (service (world s1))) = task_adds (calls (service (world s))) /\
    find_job jid (service (world s1))
    = Some {| cloud_job_id := jid; cloud_job_pool := pid;
              cloud_job_state := job_active; cloud_job_tasks := [] |}.
Proof.
  intros H1. destruct s as [o w].
  unfold add_job, config_get in H1. run_in H1. case_config H1.
  destruct (pool_id o) as [pid|] eqn:Hpid; cbn in H1; [|discriminate].
  unfold logger_info, logger_log, job_add in H1. run_in H1.
  rewrite !find_job_record_call in H1.
  destruct (find_job _ _) eqn:Hfind; cbn in H1; [discriminate|].
  rewrite !has_pool_record_call in H1.
  destruct (has_pool _ _); cbn in H1; [|discriminate].
  injection H1 as <-. cbn. do 2 eexists.
  repeat split; try reflexivity.
  - exact Hpid.
  - unfold task_adds. rewrite omap_app. cbn. apply app_nil_r.
  - eapply find_job_new; [exact Hfind|reflexivity|reflexivity].
Qed.

(** C7.  Once the pool and the job are there, [batch_main] submits one
    task per replica: for [NUM_TASKS = n >= 0] the tasks added to the
    job are exactly [job_number0_<campaign>] ... [job_number{n-1}_<campaign>],
    in this order, they are [n] in number and pairwise distinct.  With
    [wait_for_tasks] unset the call returns normally. *)
Theorem fan_out_submits_replicas
    (command brain_name workdir : option string)
    (wait_for_tasks log_iterations : bool) (s s1 : State)
    (n delay : Z) (num_raw delay_raw name_raw pub account brain : string) :
  (create_pool true log_iterations ;; add_job None) s = (Ok tt, s1) ->
  lookup_option (config (self s)) "POOL" "NUM_TASKS" = Ok num_raw ->
  int_of_str num_raw = Ok n ->
  0 <= n ->
  lookup_option (config (self s)) "POOL" "TIME_DELAY_BETWEEN_SIMS" = Ok delay_raw ->
  int_of_str delay_raw = Ok delay ->
  lookup_option (config (self s)) "POOL" "JOB_NAME" = Ok name_raw ->
  lookup_option (config (self s)) "POOL" "PUBLISHER" = Ok pub ->
  lookup_option (config (self s)) "BATCH" "ACCOUNT_NAME" = Ok account ->
  lookup_option (config (self s)) "BONSAI" "BRAIN_NAME" = Ok brain ->
  let names := map (fun i => task_name_of i (strip_quote name_raw)) (range n) in
  exists r s' jid,
    batch_main command brain_name wait_for_tasks log_iterations workdir s = (r, s') /\
    (wait_for_tasks = false -> r = Ok tt) /\
    job_id (self s') = Some jid /\
    task_adds (calls (service (world s')))
    = task_adds (calls (service (world s))) ++ map (fun name => (jid, name)) names /\
    Z.of_nat (List.length names) = n /\
    List.NoDup names.
Proof.
  intros Hpre Hnum Hnum_int Hn Hdelay Hdelay_int Hname Hpub Hacc Hbrain names.
  unfold bind in Hpre.
  destruct (create_pool true log_iterations s) as [[[]|e] s0] eqn:Hpool;
    [|discriminate].
  destruct (create_pool_keeps _ _ _ _ Hpool) as (Hc0 & _ & Ha0 & _ & _).
  destruct (add_job_run _ _ Hpre) as (jid & pid & Hc1 & Hj1 & Hp1 & Ha1 & Hfind).
  rewrite Hc0 in Hc1.
  destruct (fan_out_loop (config (self s)) pub pid jid delay_raw name_raw delay
              workdir Hpub Hdelay Hdelay_int Hname (range n) command
              {| self := self s1;
                 world := set_log
                   (log (world s1) ++
                    [LogRec INFO ("Using batch account " +:+ account +:+ " to run job "
                                  +:+ name_raw +:+ " with " +:+ num_raw +:+ " tasks")])
                   (world s1) |}
              _ Hc1 Hp1 Hj1 Hfind eq_refl (range_NoDup n))
    as (c & s2 & Hloop & Hc2 & Hj2 & Hadds); [reflexivity|].
  cbn in Hadds.
  assert (Hnames : Z.of_nat (List.length names) = n /\ List.NoDup names).
  { split.
    - unfold names. rewrite List.length_map. now apply range_length.
    - unfold names. apply Finite.Injective_map_NoDup; [|apply range_NoDup].
      intros i i' Heq. now apply task_name_of_inj in Heq. }
  assert (Hmap : map (fun name => (jid, name)) names
                 = map (fun i => (jid, task_name_of i (strip_quote name_raw))) (range n)).
  { unfold names. now rewrite List.map_map. }
  unfold batch_main. unfold bind at 1. rewrite Hpool. unfold bind at 1. rewrite Hpre.
  destruct s1 as [o1 w1]. cbn in Hc1, Hadds, Hloop, Ha1.
  unfold config_get, fan_out, config_int, logger_info, logger_log.
  destruct (truthy brain_name); run;
    repeat (rewrite Hc1; replay); rewrite Hloop; cbn;
    (destruct wait_for_tasks;
     [ rewrite wait_for_tasks_run; cbn | destruct s2 as [o2 w2]; cbn ]);
    do 3 eexists; (split; [reflexivity|]); cbn;
    (split; [intros; first [discriminate | reflexivity]|]);
    (split; [exact Hj2|]);
    (split; [rewrite Hmap; cbn in Hadds; rewrite Hadds, Ha1, Ha0; reflexivity|]);
    exact Hnames.
Qed.

Lemma fan_out_submits_replicas_witness :
  let s := sample_state (sample_config "linux" "microsoft-azure-batch" "3")
                        (empty_backend (fun _ _ _ => active)) in
  let names := ["job_number0_cartpolejob"; "job_number1_cartpolejob";
                "job_number2_cartpolejob"] in
  exists r s' jid,
    batch_main None None false false None s = (r, s') /\
    (false = false -> r = Ok tt) /\
    job_id (self s') = Some jid /\
    task_adds (calls (service (world s')))
    = task_adds (calls (service (world s))) ++ map (fun name => (jid, name)) names /\
    Z.of_nat (List.length names) = 3 /\
    List.NoDup names.
Proof.
  cbv zeta.
  refine (fan_out_submits_replicas None None None false false
            (sample_state (sample_config "linux" "microsoft-azure-batch" "3")
                          (empty_backend (fun _ _ _ => active)))
            (snd ((create_pool true false ;; add_job None)%py
                    (sample_state (sample_config "linux" "microsoft-azure-batch" "3")
                                  (empty_backend (fun _ _ _ => active)))))
            3 1 "3" "1" "'cartpolejob'" "microsoft-azure-batch" "simbatch" "'balance'"
            _ _ _ _ _ _ _ _ _ _);
    try (vm_compute; reflexivity).
  lia.
Defined.

(** *** Teardown *)

(** [try_delete] never raises: it returns [None] whether the deletion
    went through or not. *)
Lemma try_delete_run (jid : string) (s : State) :
  exists s',
    try_delete jid s = (Ok tt, s') /\
    self s' = self s /\
    calls (service (world s')) = calls (service (world s)) ++ [JobDelete jid].
Proof.
  destruct s as [o w]. unfold try_delete, job_delete. run.
  rewrite find_job_record_call.
  destruct (find_job jid (service w)) as [j|]; cbn.
  - destruct (cloud_job_state j); cbn; eexists; repeat split.
  - eexists; repeat split.
Qed.

Lemma delete_each_run (ids : list string) :
  forall s : State,
    exists outcomes s',
      comprehension ids try_delete s = (Ok outcomes, s') /\
      List.length outcomes = List.length ids /\
      calls (service (world s'))
      = calls (service (world s)) ++ map JobDelete ids.
Proof.
  induction ids as [|jid rest IH]; intros s.
  - exists [], s. cbn. rewrite app_nil_r. auto.
  - destruct (try_delete_run jid s) as (s1 & Hrun & _ & Hcalls).
    destruct (IH s1) as (outs & s' & Hrest & Hlen & Hcalls').
    exists (tt :: outs), s'. cbn [comprehension]. unfold bind at 1. rewrite Hrun.
    unfold bind at 1. rewrite Hrest. cbn.
    repeat split; [now rewrite Hlen|].
    rewrite Hcalls', Hcalls, <- app_assoc. reflexivity.
Qed.

(** A list of [None]s is known by its length. *)
Lemma all_None (l : list unit) : l = repeat tt (List.length l).
Proof. induction l as [|[] l IH]; cbn; [reflexivity | now rewrite <- IH]. Qed.

Lemma job_deletes_app (cs cs' : list Call) :
  job_deletes (cs ++ cs') = job_deletes cs ++ job_deletes cs'.
Proof. unfold job_deletes. apply omap_app. Qed.

Lemma job_deletes_map (ids : list string) : job_deletes (map JobDelete ids) = ids.
Proof.
  unfold job_deletes. induction ids as [|i rest IH]; cbn; [reflexivity | now rewrite IH].
Qed.

(** C8, as amended.  [delete_all_tasks] attempts the deletion of every
    listed job, in the order of the listing, whether or not some
    deletions throw, and always returns normally with one entry per
    job; every entry is [None].  For the jobs [a], [b], [c] where
    deleting [b] throws, the result is three [None]s, the failure of
    [b] shows as one printed line [already gone], and [a] and [c] are
    deleted. *)
Theorem delete_all_tasks_attempts_all :
  (forall s : State,
      exists outcomes s',
        delete_all_tasks s = (Ok outcomes, s') /\
        List.length outcomes = List.length (jobs (service (world s))) /\
        outcomes = repeat tt (List.length (jobs (service (world s)))) /\
        job_deletes (calls (service (world s')))
        = job_deletes (calls (service (world s)))
          ++ map cloud_job_id (jobs (service (world s)))) /\
  (let r := delete_all_tasks three_jobs_state in
   fst (job_delete "b" (service (world three_jobs_state)))
     = Raise (BatchErrorException "JobBeingDeleted") /\
   fst r = Ok [tt; tt; tt] /\
   job_deletes (calls (service (world (snd r)))) = ["a"; "b"; "c"] /\
   stdout (world (snd r)) = ["already gone" +:+ newline] /\
   map (fun j => (cloud_job_id j, cloud_job_state j)) (jobs (service (world (snd r))))
   = [("a", job_deleting); ("b", job_deleting); ("c", job_deleting)]).
Proof.
  split.
  - intros [o w]. unfold delete_all_tasks, job_list. run.
    destruct (delete_each_run (map cloud_job_id (jobs (service w)))
                {| self := o;
                   world := set_service (record_call JobList (service w)) w |})
      as (outs & s' & Hrun & Hlen & Hcalls).
    exists outs, s'. rewrite Hrun. cbn in Hcalls. rewrite Hcalls.
    rewrite List.length_map in Hlen.
    repeat split; [exact Hlen | rewrite <- Hlen; apply all_None |].
    rewrite !job_deletes_app, job_deletes_map. cbn. now rewrite app_nil_r.
  - vm_compute. repeat split.
Qed.

(** C8 as stated fails: in that run the three outcomes are the same
    value, so none of them is marked failed while another is marked
    succeeded. *)
Lemma delete_all_tasks_outcomes_alike :
  let r := delete_all_tasks three_jobs_state in
  fst (job_delete "b" (service (world three_jobs_state)))
    = Raise (BatchErrorException "JobBeingDeleted") /\
  fst r = Ok [tt; tt; tt] /\
  ~ (exists (failed : unit -> bool) (oa ob oc : unit),
        fst r = Ok [oa; ob; oc] /\
        failed ob = true /\ failed oa = false /\ failed oc = false).
Proof.
  cbv zeta. split; [vm_compute; reflexivity|]. split; [vm_compute; reflexivity|].
  intros (failed & [] & [] & [] & _ & Hb & Ha & _). congruence.
Qed.

(** *** Mount paths *)

(** C9.  For the platform spelled [Windows], which [run_tasks] takes
    for a Windows target (it lower-cases the platform and installs the
    publisher [MicrosoftWindowsServer]), a campaign with the share
    requested runs to the end with the two components on different
    conventions: [create_pool] compares the platform with [windows]
    as it is spelled and mounts the share at [azfileshare], the
    convention of the other OS family, while [add_task] goes by the
    publisher and binds [S:\] to [C:\src\logs]. *)
Theorem mount_path_disagrees_on_Windows :
  let r := batch_main None None false true None windows_state in
  lookup_option (config (self windows_state)) "ACR" "PLATFORM" = Ok "Windows" /\
  lower "Windows" = "windows" /\
  lookup_option (config (self windows_state)) "POOL" "PUBLISHER"
    = Ok "MicrosoftWindowsServer" /\
  fst r = Ok tt /\
  mount_path (self (snd r)) = Some (fst (spec_mount false "src")) /\
  pool_mount_paths (calls (service (world (snd r))))
    = [[fst (spec_mount false "src")]] /\
  run_options (calls (service (world (snd r))))
    = ["-w C:\src\ --volume " +:+ snd (spec_mount true "src")] /\
  fst (spec_mount false "src") <> fst (spec_mount true "src").
Proof. vm_compute. repeat split. discriminate. Qed.

(** The path [create_pool] mounts the share at follows the platform of
    the registry alone. *)
Lemma create_pool_mount_path (skip fileshare : bool) (s s1 : State) (platform : string) :
  lookup_option (config (self s)) "ACR" "PLATFORM" = Ok platform ->
  create_pool skip fileshare s = (Ok tt, s1) ->
  mount_path (self s1)
  = Some (if String.eqb platform "windows" then "S" else "azfileshare").
Proof.
  intros Hplat H1. destruct s as [o w]. cbn in Hplat.
  unfold create_pool, config_int, config_get in H1. run_in H1.
  case_config H1.
  injection Hplat as ->.
  destruct fileshare, skip; cbn in H1; case_config H1;
    unfold logger_info, logger_warning, logger_log, pool_exists, pool_add in H1;
    run_in H1; rewrite ?has_pool_record_call in H1;
    destruct (has_pool _ _) eqn:Hp; cbn in H1;
    rewrite ?has_pool_record_call, ?Hp in H1; cbn in H1; try discriminate H1;
    injection H1 as <-; reflexivity.
Qed.

(** *** Pool deletion *)

Lemma class_dict_delete_pool :
  class_dict !! "delete_pool" = Some (Method0 delete_pool).
Proof. vm_compute. reflexivity. Qed.

(** C10.  The class keeps the second definition of [delete_pool], the
    one without a parameter: a call with a pool name raises
    [TypeError] and reaches no pool, and a call without argument
    deletes the pool named by [config["POOL"]["POOL_ID"]], as it is
    written there, and hands the result of the backend, error
    included, to the caller. *)
Theorem delete_pool_takes_no_argument :
  class_dict !! "delete_pool" = Some (Method0 delete_pool) /\
  (forall (pool_name : string) (s : State),
      exists msg,
        call_method "delete_pool" [pool_name] s = (Raise (TypeError msg), s)) /\
  (forall (s : State) (raw : string),
      lookup_option (config (self s)) "POOL" "POOL_ID" = Ok raw ->
      let r := call_method "delete_pool" [] s in
      calls (service (world (snd r)))
        = calls (service (world s)) ++ [PoolDelete raw] /\
      fst r = fst (pool_delete raw (service (world s))) /\
      (forall e, fst (pool_delete raw (service (world s))) = Raise e ->
                 fst r = Raise e)).
Proof.
  split; [exact class_dict_delete_pool|]. split.
  - intros pool_name s. unfold call_method. rewrite class_dict_delete_pool.
    eexists. reflexivity.
  - intros [o w] raw Hraw. cbn in Hraw. cbv zeta.
    unfold call_method. rewrite class_dict_delete_pool.
    unfold delete_pool, config_get, logger_info, logger_log. run.
    rewrite Hraw. cbn. unfold pool_delete. cbn.
    rewrite has_pool_record_call.
    destruct (has_pool raw (service w)); cbn; repeat split; intros; congruence.
Qed.

Lemma delete_pool_takes_no_argument_witness :
  let s := sample_state (sample_config "linux" "microsoft-azure-batch" "3")
                        (empty_backend (fun _ _ _ => active)) in
  let r := call_method "delete_pool" [] s in
  calls (service (world (snd r))) = [PoolDelete "'cartpolepool10'"] /\
  fst r = fst (pool_delete "'cartpolepool10'" (service (world s))) /\
  (forall e, fst (pool_delete "'cartpolepool10'" (service (world s))) = Raise e ->
             fst r = Raise e).
Proof.
  cbv zeta.
  apply (proj2 (proj2 delete_pool_takes_no_argument)
           (sample_state (sample_config "linux" "microsoft-azure-batch" "3")
                         (empty_backend (fun _ _ _ => active)))
           "'cartpolepool10'").
  vm_compute. reflexivity.
Defined.

(** *** The polling loop on its own

    What lines 390-408 do once they are reached: polls are one second
    apart, starting at the time of the call. *)

(** No task is left in the list of incomplete ones exactly when all
    are completed. *)
Lemma incomplete_nil (b : Backend) (jid : string) (j : CloudJob) (t : Z) :
  List.filter (fun ct => negb (TaskState_eqb (state ct) completed))
    (map (fun task => {| cloud_task_id := task_param_id task;
                         state := schedule b jid (task_param_id task) t |})
         (cloud_job_tasks j)) = []
  <-> all_completed b jid j t = true.
Proof.
  unfold all_completed. induction (cloud_job_tasks j) as [|x xs IH]; cbn.
  - tauto.
  - destruct (TaskState_eqb (schedule b jid (task_param_id x) t) completed); cbn.
    + exact IH.
    + split; discriminate.
Qed.

Lemma all_completed_at (b : Backend) (c : Call) (jid : string) (j : CloudJob)
    (t t' : Z) :
  t = t' -> all_completed (record_call c b) jid j t = all_completed b jid j t'.
Proof. intros ->. reflexivity. Qed.

(** One round of the loop before the deadline. *)
Lemma wait_loop_round (fuel : nat) (expiration timeout : Z) (o : Self) (w : World)
    (jid : string) (j : CloudJob) :
  job_id o = Some jid ->
  find_job jid (service w) = Some j ->
  clock w < expiration ->
  let w1 := set_service (record_call (TaskList jid) (service w))
              (set_stdout (stdout w ++ ["." +:+ ""]) w) in
  wait_loop (S fuel) expiration timeout {| self := o; world := w |}
  = if all_completed (service w) jid j (clock w)
    then (Ok (Some true),
          {| self := o; world := set_stdout (stdout w1 ++ ["" +:+ newline]) w1 |})
    else wait_loop fuel expiration timeout
           {| self := o; world := set_clock (clock w1 + 1 * us_per_second) w1 |}.
Proof.
  intros Hjid Hjob Hlt. cbv zeta.
  cbn [wait_loop]. unfold bind at 1. run.
  destruct (Z.ltb_spec (clock w) expiration) as [_|]; [|lia]. run.
  rewrite Hjid. run. unfold task_list. cbn. rewrite find_job_record_call, Hjob. cbn.
  pose proof (incomplete_nil (service w) jid j (clock w)) as Hnil.
  change (schedule (record_call (TaskList jid) (service w))) with (schedule (service w)).
  destruct (List.filter _ _) as [|x xs].
  - rewrite (proj1 Hnil eq_refl). reflexivity.
  - destruct (all_completed _ _ _ _); [destruct Hnil as [_ Hnil]; discriminate (Hnil eq_refl)|].
    reflexivity.
Qed.

(** The loop returns [True] when some poll before the deadline finds
    every task completed. *)
Lemma wait_loop_success (k : nat) :
  forall (fuel : nat) (expiration timeout : Z) (o : Self) (w : World)
         (jid : string) (j : CloudJob),
    job_id o = Some jid ->
    find_job jid (service w) = Some j ->
    (k < fuel)%nat ->
    (forall i, (i < k)%nat ->
       all_completed (service w) jid j (clock w + Z.of_nat i * us_per_second) = false) ->
    clock w + Z.of_nat k * us_per_second < expiration ->
    all_completed (service w) jid j (clock w + Z.of_nat k * us_per_second) = true ->
    fst (wait_loop fuel expiration timeout {| self := o; world := w |})
    = Ok (Some true).
Proof.
  induction k as [|k IH]; intros fuel expiration timeout o w jid j Hjid Hjob Hfuel
    Hbefore Hlt Hdone; (destruct fuel as [|fuel]; [lia|]).
  - rewrite Z.mul_0_l, Z.add_0_r in Hlt, Hdone.
    rewrite (wait_loop_round _ _ _ _ _ jid j) by assumption.
    cbv zeta. rewrite Hdone. reflexivity.
  - unfold us_per_second in *.
    assert (clock w < expiration) by lia.
    rewrite (wait_loop_round _ _ _ _ _ jid j) by assumption.
    cbv zeta. specialize (Hbefore 0%nat ltac:(lia)) as H0.
    rewrite Z.mul_0_l, Z.add_0_r in H0. rewrite H0.
    apply (IH _ _ _ _ _ jid j); cbn [service clock set_service set_clock set_stdout];
      try assumption; try (unfold us_per_second in *; lia).
    + intros i Hi. specialize (Hbefore (S i) ltac:(lia)).
      rewrite <- Hbefore. apply all_completed_at. unfold us_per_second. lia.
    + rewrite <- Hdone. apply all_completed_at. unfold us_per_second. lia.
Qed.

(** It raises its error, which carries the timeout, when no poll
    before the deadline does. *)
Lemma wait_loop_timeout (fuel : nat) :
  forall (expiration timeout : Z) (o : Self) (w : World)
         (jid : string) (j : CloudJob),
    job_id o = Some jid ->
    find_job jid (service w) = Some j ->
    (0 < fuel)%nat ->
    expiration - clock w <= (Z.of_nat fuel - 1) * us_per_second ->
    (forall i : nat, clock w + Z.of_nat i * us_per_second < expiration ->
       all_completed (service w) jid j (clock w + Z.of_nat i * us_per_second) = false) ->
    fst (wait_loop fuel expiration timeout {| self := o; world := w |})
    = Raise (RuntimeError
               ("ERROR: Tasks did not reach 'Completed' state within "
                +:+ "timeout period of " +:+ str_timedelta timeout)).
Proof.
  induction fuel as [|fuel IH]; intros expiration timeout o w jid j Hjid Hjob Hpos
    Hle Hnever; [lia|].
  unfold us_per_second in *.
  destruct (Z.lt_ge_cases (clock w) expiration) as [Hlt|Hge].
  - rewrite (wait_loop_round _ _ _ _ _ jid j) by assumption.
    cbv zeta. specialize (Hnever 0%nat) as H0.
    rewrite Z.mul_0_l, Z.add_0_r in H0. rewrite (H0 Hlt).
    apply (IH _ _ _ _ jid j); cbn [service clock set_service set_clock set_stdout];
      try assumption; try (unfold us_per_second in *; lia).
    intros i Hi. specialize (Hnever (S i)).
    rewrite <- Hnever by (unfold us_per_second in *; lia).
    apply all_completed_at. unfold us_per_second. lia.
  - cbn [wait_loop]. unfold bind at 1. run.
    destruct (Z.ltb_spec (clock w) expiration); [lia|]. reflexivity.
Qed.

(** *** Further properties

    The decimal rendering of an integer reads back as that integer:
    what [run_tasks] writes with [str] is what the class reads with
    [int]. *)










Arguments input : simpl never.
Arguments choose_vm_sku : simpl never.
Arguments tasks_per_node_of : simpl never.
Arguments select_vm_sku : simpl never.










(** [add_job] on an instance that has not been through [create_pool]
    fails reading [self.pool_id], lines 266-268: it raises [AttributeError],
    after [self.job_id] has been assigned, and neither logs nor calls
    the service. *)
Theorem add_job_before_create_pool (job_name : option string) (s : State) (raw : string) :
  pool_id (self s) = None ->
  lookup_option (config (self s)) "POOL" "JOB_NAME" = Ok raw ->
  exists jid s',
    add_job job_name s
    = (Raise (AttributeError "'AzureBatchContainers' object has no attribute 'pool_id'"), s') /\
    job_id (self s') = Some jid /\
    world s' = world s.
Proof.
  intros Hpid Hraw. destruct s as [o w]. cbn in Hpid, Hraw.
  unfold add_job, config_get. destruct (truthy job_name); run;
    rewrite ?Hraw; cbn; rewrite Hpid; cbn; do 2 eexists; repeat split.
Qed.

Lemma add_job_before_create_pool_witness :
  let s := sample_state (sample_config "linux" "microsoft-azure-batch" "3")
                        (empty_backend (fun _ _ _ => active)) in
  exists jid s',
    add_job None s
    = (Raise (AttributeError "'AzureBatchContainers' object has no attribute 'pool_id'"), s') /\
    job_id (self s') = Some jid /\
    world s' = world s.
Proof.
  cbv zeta.
  apply (add_job_before_create_pool None _ "'cartpolejob'"); vm_compute; reflexivity.
Defined.



(** An exception of [create_pool] that does not come from the
    service (a missing option, a count that is not a number) is raised
    before any call: the account and [self.pool_id] are as before. *)
Theorem create_pool_config_errors_are_local (skip fileshare : bool)
    (s s1 : State) (e : Exn) :
  create_pool skip fileshare s = (Raise e, s1) ->
  (forall code, e <> BatchErrorException code) ->
  service (world s1) = service (world s) /\
  pool_id (self s1) = pool_id (self s).
Proof.
  intros H1 Hlocal. destruct s as [o w].
  unfold create_pool, config_int, config_get in H1. run_in H1.
  case_config H1; try (injection H1 as <- <-; split; reflexivity).
  destruct fileshare, skip; cbn in H1; case_config H1;
    try (injection H1 as <- <-; split; reflexivity);
    unfold logger_info, logger_warning, logger_log, pool_exists, pool_add in H1;
    run_in H1; rewrite ?has_pool_record_call in H1;
    destruct (has_pool _ _) eqn:Hp; cbn in H1;
    rewrite ?has_pool_record_call, ?Hp in H1; cbn in H1; try discriminate H1;
    injection H1 as <- <-; exfalso; eapply Hlocal; reflexivity.
Qed.

Lemma create_pool_config_errors_are_local_witness :
  let s := sample_state (delete "STORAGE" (sample_config "linux" "microsoft-azure-batch" "3"))
                        (empty_backend (fun _ _ _ => active)) in
  service (world (snd (create_pool true true s))) = service (world s) /\
  pool_id (self (snd (create_pool true true s))) = pool_id (self s).
Proof.
  cbv zeta.
  apply (create_pool_config_errors_are_local true true _ _ (KeyError "STORAGE"));
    [vm_compute; reflexivity | discriminate].
Defined.

(** [batch_main] reads the name of the brain only after
    provisioning: when the option is missing and no name is passed, the
    [KeyError] leaves a pool and an active job without tasks behind, and
    no task has been submitted. *)
Theorem batch_main_config_error_after_provisioning
    (command : option string) (wait_for_tasks log_iterations : bool)
    (workdir : option string) (s s1 : State) (e : Exn) :
  (create_pool true log_iterations ;; add_job None) s = (Ok tt, s1) ->
  lookup_option (config (self s)) "BONSAI" "BRAIN_NAME" = Raise e ->
  batch_main command None wait_for_tasks log_iterations workdir s = (Raise e, s1) /\
  (exists jid pid,
      job_id (self s1) = Some jid /\
      find_job jid (service (world s1))
      = Some {| cloud_job_id := jid; cloud_job_pool := pid;
                cloud_job_state := job_active; cloud_job_tasks := [] |}) /\
  task_adds (calls (service (world s1))) = task_adds (calls (service (world s))).
Proof.
  intros Hpre Hbrain. unfold bind in Hpre.
  destruct (create_pool true log_iterations s) as [[[]|e0] s0] eqn:Hpool;
    [|discriminate].
  destruct (create_pool_keeps _ _ _ _ Hpool) as (Hc0 & _ & Ha0 & _ & _).
  destruct (add_job_run _ _ Hpre) as (jid & pid & Hc1 & Hj1 & Hp1 & Ha1 & Hfind).
  split; [|split].
  - unfold batch_main. unfold bind at 1. rewrite Hpool. unfold bind at 1. rewrite Hpre.
    destruct s1 as [o1 w1]. cbn in Hc1. unfold config_get. run.
    rewrite Hc1, Hc0, Hbrain. reflexivity.
  - exists jid, pid. split; assumption.
  - congruence.
Qed.

Lemma batch_main_config_error_after_provisioning_witness :
  let s := sample_state (delete "BONSAI" (sample_config "linux" "microsoft-azure-batch" "3"))
                        (empty_backend (fun _ _ _ => active)) in
  let s1 := snd ((create_pool true false ;; add_job None)%py s) in
  batch_main None None false false None s = (Raise (KeyError "BONSAI"), s1) /\
  (exists jid pid,
      job_id (self s1) = Some jid /\
      find_job jid (service (world s1))
      = Some {| cloud_job_id := jid; cloud_job_pool := pid;
                cloud_job_state := job_active; cloud_job_tasks := [] |}) /\
  task_adds (calls (service (world s1))) = task_adds (calls (service (world s))).
Proof.
  cbv zeta.
  apply batch_main_config_error_after_provisioning; vm_compute; reflexivity.
Defined.

Lemma strftime_same_second (t t' : Z) :
  t / us_per_second = t' / us_per_second -> strftime_dashes t = strftime_dashes t'.
Proof.
  intros H.
  assert (Hday : forall x, x / us_per_day = x / us_per_second / 86400).
  { intros x. unfold us_per_day. rewrite Z.div_div by (unfold us_per_second; lia).
    f_equal; try lia. }
  assert (Hsec : forall x, (x mod us_per_day) / us_per_second = (x / us_per_second) mod 86400).
  { intros x. unfold us_per_day.
    replace (86400 * us_per_second) with (us_per_second * 86400) by lia.
    rewrite Z.rem_mul_r by (unfold us_per_second; lia).
    rewrite Z.mul_comm, Z.div_add by (unfold us_per_second; lia).
    rewrite Z.div_small; [lia|]. apply Z.mod_pos_bound. reflexivity. }
  unfold strftime_dashes. rewrite !Hday, !Hsec, H. reflexivity.
Qed.

(** The default job id has the resolution of a second (lines 260-265):
    a second [add_job] without name on a clock within the same second
    builds the same id, which the service rejects with [JobExists]; the
    jobs are left as they were. *)
Theorem default_job_ids_collide_within_a_second (s s1 : State) (t' : Z) :
  add_job None s = (Ok tt, s1) ->
  t' / us_per_second = clock (world s) / us_per_second ->
  exists jid pid s2,
    job_id (self s1) = Some jid /\
    add_job None {| self := self s1; world := set_clock t' (world s1) |}
    = (Raise (BatchErrorException "JobExists"), s2) /\
    calls (service (world s2)) = calls (service (world s1)) ++ [JobAdd jid pid] /\
    jobs (service (world s2)) = jobs (service (world s1)).
Proof.
  intros H1 Hsec. destruct s as [o w]. cbn in Hsec.
  unfold add_job, config_get in H1. run_in H1. case_config H1.
  destruct (pool_id o) as [pid|] eqn:Hpid; cbn in H1; [|discriminate].
  unfold logger_info, logger_log, job_add in H1. run_in H1.
  rewrite !find_job_record_call in H1.
  destruct (find_job _ _) eqn:Hfind; cbn in H1; [discriminate|].
  rewrite !has_pool_record_call in H1.
  destruct (has_pool _ _); cbn in H1; [|discriminate].
  injection H1 as <-. cbn.
  exists ("Job-" +:+ strip_quote a +:+ "-" +:+ strftime_dashes (clock w)), pid.
  unfold add_job, config_get. run. rewrite Ecfg. cbn. rewrite Hpid. cbn.
  unfold logger_info, logger_log, job_add. run.
  rewrite (strftime_same_second t' (clock w) Hsec).
  rewrite find_job_record_call.
  match goal with
  | |- context [find_job ?jid (set_jobs (?js ++ [?j]) ?b)] =>
      rewrite (find_job_new jid j (service w) (set_jobs (js ++ [j]) b) Hfind eq_refl eq_refl)
  end.
  eexists. repeat split.
Qed.

Lemma default_job_ids_collide_within_a_second_witness :
  let s := snd (create_pool true false
                  (sample_state (sample_config "linux" "microsoft-azure-batch" "3")
                                (empty_backend (fun _ _ _ => active)))) in
  let s1 := snd (add_job None s) in
  exists jid pid s2,
    job_id (self s1) = Some jid /\
    add_job None {| self := self s1; world := set_clock (sample_time + 999999) (world s1) |}
    = (Raise (BatchErrorException "JobExists"), s2) /\
    calls (service (world s2)) = calls (service (world s1)) ++ [JobAdd jid pid] /\
    jobs (service (world s2)) = jobs (service (world s1)).
Proof.
  cbv zeta.
  apply (default_job_ids_collide_within_a_second
           (snd (create_pool true false
                   (sample_state (sample_config "linux" "microsoft-azure-batch" "3")
                                 (empty_backend (fun _ _ _ => active))))));
    vm_compute; reflexivity.
Defined.

Lemma has_pool_app (pid : string) (p : PoolAddParameter)
    (ps : list PoolAddParameter) (b : Backend) :
  has_pool pid (set_pools (ps ++ [p]) b)
  = (has_pool pid (set_pools ps b) || String.eqb (pool_param_id p) pid)%bool.
Proof.
  unfold has_pool. cbn. rewrite existsb_app. cbn. now rewrite orb_false_r.
Qed.

Lemma has_pool_removed (pid : string) (ps : list PoolAddParameter) (b : Backend) :
  has_pool pid
    (set_pools (List.filter (fun p => negb (String.eqb (pool_param_id p) pid)) ps) b)
  = false.
Proof.
  unfold has_pool. cbn. induction ps as [|p ps IH]; cbn; [reflexivity|].
  destruct (String.eqb (pool_param_id p) pid) eqn:E; cbn; [exact IH|].
  rewrite E. exact IH.
Qed.

(** What a successful [create_pool] leaves behind. *)
Lemma create_pool_effect (skip fileshare : bool) (s s1 : State) (raw : string) :
  lookup_option (config (self s)) "POOL" "POOL_ID" = Ok raw ->
  create_pool skip fileshare s = (Ok tt, s1) ->
  config (self s1) = config (self s) /\
  pool_id (self s1) = Some (strip_quote raw) /\
  has_pool (strip_quote raw) (service (world s1)) = true /\
  (forall pid, pid <> strip_quote raw ->
     has_pool pid (service (world s1)) = has_pool pid (service (world s))).
Proof.
  intros Hraw H1. destruct s as [o w]. cbn in Hraw.
  unfold create_pool, config_int, config_get in H1. run_in H1.
  rewrite Hraw in H1. cbn in H1.
  case_config H1.
  destruct fileshare, skip; cbn in H1; case_config H1;
    unfold logger_info, logger_warning, logger_log, pool_exists, pool_add in H1;
    run_in H1; rewrite ?has_pool_record_call in H1;
    destruct (has_pool _ _) eqn:Hp; cbn in H1;
    rewrite ?has_pool_record_call, ?Hp in H1; cbn in H1; try discriminate H1;
    injection H1 as <-; cbn;
    (split; [reflexivity|]); (split; [reflexivity|]);
    rewrite ?has_pool_record_call;
    first [ split; [exact Hp | intros; reflexivity]
          | split;
            [ apply has_pool_added; reflexivity
            | intros pid Hne; rewrite has_pool_app; cbn [pool_param_id];
              apply String.eqb_neq in Hne;
              rewrite (String.eqb_sym (strip_quote raw) pid), Hne, orb_false_r;
              reflexivity ] ].
Qed.

Lemma delete_pool_run (s : State) (raw : string) :
  lookup_option (config (self s)) "POOL" "POOL_ID" = Ok raw ->
  exists s',
    delete_pool s
    = (if has_pool raw (service (world s)) then Ok tt
       else Raise (BatchErrorException "PoolNotFound"), s') /\
    calls (service (world s')) = calls (service (world s)) ++ [PoolDelete raw] /\
    has_pool raw (service (world s')) = false /\
    (forall pid, pid <> raw ->
       has_pool pid (service (world s')) = has_pool pid (service (world s))).
Proof.
  intros Hraw. destruct s as [o w]. cbn in Hraw.
  unfold delete_pool, config_get, logger_info, logger_log. run.
  rewrite Hraw. cbn. unfold pool_delete. cbn. rewrite has_pool_record_call.
  destruct (has_pool raw (service w)) eqn:Hp; cbn; eexists;
    (split; [reflexivity|]); (split; [reflexivity|]); cbn.
  - split; [apply has_pool_removed|].
    intros pid Hne. unfold has_pool. cbn.
    induction (pools (service w)) as [|p ps IH]; cbn; [reflexivity|].
    destruct (String.eqb (pool_param_id p) raw) eqn:E; cbn.
    + apply String.eqb_eq in E. rewrite IH.
      destruct (String.eqb (pool_param_id p) pid) eqn:E'; [|reflexivity].
      apply String.eqb_eq in E'. congruence.
    + now rewrite IH.
  - split; [exact Hp | reflexivity].
Qed.

(** A pool id written without quotes: the pool [create_pool] has
    provided is the one [delete_pool] deletes. *)
Theorem create_then_delete_pool (skip fileshare : bool) (s s1 : State) (raw : string) :
  lookup_option (config (self s)) "POOL" "POOL_ID" = Ok raw ->
  strip_quote raw = raw ->
  create_pool skip fileshare s = (Ok tt, s1) ->
  exists s2,
    delete_pool s1 = (Ok tt, s2) /\
    pool_id (self s1) = Some raw /\
    has_pool raw (service (world s1)) = true /\
    has_pool raw (service (world s2)) = false.
Proof.
  intros Hraw Hplain H1.
  destruct (create_pool_effect _ _ _ _ _ Hraw H1) as (Hcfg & Hid & Hthere & _).
  rewrite Hplain in *. rewrite <- Hcfg in Hraw.
  destruct (delete_pool_run s1 raw Hraw) as (s2 & Hrun & _ & Hgone & _).
  rewrite Hthere in Hrun. exists s2. auto.
Qed.

Lemma create_then_delete_pool_witness :
  let s := sample_state unquoted_config (empty_backend (fun _ _ _ => active)) in
  let s1 := snd (create_pool true false s) in
  exists s2,
    delete_pool s1 = (Ok tt, s2) /\
    pool_id (self s1) = Some "cartpolepool10" /\
    has_pool "cartpolepool10" (service (world s1)) = true /\
    has_pool "cartpolepool10" (service (world s2)) = false.
Proof.
  cbv zeta.
  apply (create_then_delete_pool true false
           (sample_state unquoted_config (empty_backend (fun _ _ _ => active))));
    vm_compute; reflexivity.
Defined.

(** A pool id written in quotes: [create_pool] strips them (line
    193), [delete_pool] does not (line 293).  The deletion addresses the
    quoted id, the service answers [PoolNotFound], and the pool that was
    created is still there. *)
Theorem quoted_pool_id_survives_delete (skip fileshare : bool) (s s1 : State)
    (raw : string) :
  lookup_option (config (self s)) "POOL" "POOL_ID" = Ok raw ->
  strip_quote raw <> raw ->
  has_pool raw (service (world s)) = false ->
  create_pool skip fileshare s = (Ok tt, s1) ->
  exists s2,
    delete_pool s1 = (Raise (BatchErrorException "PoolNotFound"), s2) /\
    calls (service (world s2)) = calls (service (world s1)) ++ [PoolDelete raw] /\
    pool_id (self s1) = Some (strip_quote raw) /\
    has_pool (strip_quote raw) (service (world s2)) = true.
Proof.
  intros Hraw Hquoted Habsent H1.
  destruct (create_pool_effect _ _ _ _ _ Hraw H1) as (Hcfg & Hid & Hthere & Hother).
  rewrite <- Hcfg in Hraw.
  destruct (delete_pool_run s1 raw Hraw) as (s2 & Hrun & Hcalls & _ & Hkeep).
  rewrite (Hother raw) in Hrun by congruence. rewrite Habsent in Hrun.
  exists s2. repeat split; try assumption.
  rewrite Hkeep by assumption. exact Hthere.
Qed.

Lemma quoted_pool_id_survives_delete_witness :
  let s := sample_state (sample_config "linux" "microsoft-azure-batch" "3")
                        (empty_backend (fun _ _ _ => active)) in
  let s1 := snd (create_pool true false s) in
  exists s2,
    delete_pool s1 = (Raise (BatchErrorException "PoolNotFound"), s2) /\
    calls (service (world s2))
      = calls (service (world s1)) ++ [PoolDelete "'cartpolepool10'"] /\
    pool_id (self s1) = Some (strip_quote "'cartpolepool10'") /\
    has_pool (strip_quote "'cartpolepool10'") (service (world s2)) = true.
Proof.
  cbv zeta.
  apply (quoted_pool_id_survives_delete true false
           (sample_state (sample_config "linux" "microsoft-azure-batch" "3")
                         (empty_backend (fun _ _ _ => active))));
    try (vm_compute; reflexivity).
  vm_compute. discriminate.
Defined.

(** Without [skip_if_exists] the pool is submitted without asking
    whether it exists: on a provisioned pool [create_pool(False)]
    issues a single [pool.add], which the service rejects with
    [PoolExists]; the pools and [self.pool_id] are as before. *)
Theorem create_pool_without_skip_rejects_existing
    (skip fileshare : bool) (s s1 : State) :
  create_pool skip fileshare s = (Ok tt, s1) ->
  exists pool s2,
    create_pool false fileshare s1 = (Raise (BatchErrorException "PoolExists"), s2) /\
    calls (service (world s2)) = calls (service (world s1)) ++ [PoolAdd pool] /\
    pools (service (world s2)) = pools (service (world s1)) /\
    pool_id (self s2) = pool_id (self s1).
Proof.
  intros H1. destruct s as [o w].
  unfold create_pool, config_int, config_get in H1. run_in H1.
  case_config H1.
  destruct fileshare, skip; cbn in H1; case_config H1;
    unfold logger_info, logger_warning, logger_log, pool_exists, pool_add in H1;
    run_in H1; rewrite ?has_pool_record_call in H1;
    destruct (has_pool _ _) eqn:Hp; cbn in H1;
    rewrite ?has_pool_record_call, ?Hp in H1; cbn in H1; try discriminate H1;
    injection H1 as <-;
    unfold create_pool, config_int, config_get; run; replay;
    unfold logger_info, logger_warning, logger_log, pool_add; run;
    rewrite ?has_pool_record_call;
    first [ rewrite Hp | rewrite has_pool_added by reflexivity ]; cbn;
    do 2 eexists; repeat split.
Qed.

Lemma create_pool_without_skip_rejects_existing_witness :
  let s := sample_state (sample_config "linux" "microsoft-azure-batch" "3")
                        (empty_backend (fun _ _ _ => active)) in
  let s1 := snd (create_pool true false s) in
  exists pool s2,
    create_pool false false s1 = (Raise (BatchErrorException "PoolExists"), s2) /\
    calls (service (world s2)) = calls (service (world s1)) ++ [PoolAdd pool] /\
    pools (service (world s2)) = pools (service (world s1)) /\
    pool_id (self s2) = pool_id (self s1).
Proof.
  cbv zeta.
  apply (create_pool_without_skip_rejects_existing true false
           (sample_state (sample_config "linux" "microsoft-azure-batch" "3")
                         (empty_backend (fun _ _ _ => active)))).
  vm_compute. reflexivity.
Defined.

Lemma add_task_payload (cmd name : string) (sd : option string) (s : State)
    (pub pid jid : string) (j : CloudJob) :
  lookup_option (config (self s)) "POOL" "PUBLISHER" = Ok pub ->
  pool_id (self s) = Some pid ->
  job_id (self s) = Some jid ->
  find_job jid (service (world s)) = Some j ->
  cloud_job_state j = job_active ->
  has_task name j = false ->
  exists s' t,
    add_task cmd name sd s = (Ok tt, s') /\
    task_param_id t = name /\
    self s' = set_task_id name (self s) /\
    calls (service (world s')) = calls (service (world s)) ++ [TaskAdd jid t] /\
    find_job jid (service (world s')) = Some (append_task jid t j) /\
    task_shape t
    = (cmd, image_name (self s) +:+ ":" +:+ image_version (self s),
       expected_options pub (use_fileshare (self s)) sd,
       [("SIM_WORKSPACE", workspace (self s)); ("SIM_ACCESS_KEY", access_key (self s))],
       admin, scope_task).
Proof.
  intros Hpub Hpid Hjid Hjob Hact Hnew. destruct s as [o w].
  cbn in Hpub, Hpid, Hjid, Hjob.
  unfold add_task, config_get. run. replay.
  destruct (use_fileshare o) eqn:Hfs; run; replay; rewrite Hpid; cbn;
    unfold logger_debug, logger_log; run; rewrite Hjid; cbn;
    unfold task_add; cbn;
    change (find_job jid (record_call ?c (service w))) with (find_job jid (service w));
    rewrite Hjob, Hact, Hnew; cbn;
    do 2 eexists; (split; [reflexivity|]); cbn;
    refine (conj _ (conj _ (conj _ (conj _ _)))).
  all: try reflexivity.
  all: try reflexivity.
  all: try (apply (find_job_map (append_task jid _) jid j (service w));
            auto using append_task_id).
  all: unfold task_shape, expected_options; cbn; rewrite ?Hfs; reflexivity.
Qed.

Section FanOutPayload.

Variables (cfg : gmap string (gmap string string)).
Variables (pub pid jid delay_raw name_raw img ver : string) (delay : Z).
Variables (ws key : option string) (fs : bool).
Variable workdir : option string.

Hypothesis Hpub : lookup_option cfg "POOL" "PUBLISHER" = Ok pub.
Hypothesis Hdelay : lookup_option cfg "POOL" "TIME_DELAY_BETWEEN_SIMS" = Ok delay_raw.
Hypothesis Hdelay_int : int_of_str delay_raw = Ok delay.
Hypothesis Hname : lookup_option cfg "POOL" "JOB_NAME" = Ok name_raw.

(** The instance as far as the loop reads it. *)
Let ready (s : State) : Prop :=
  config (self s) = cfg /\ pool_id (self s) = Some pid /\
  job_id (self s) = Some jid /\ image_name (self s) = img /\
  image_version (self s) = ver /\ workspace (self s) = ws /\
  access_key (self s) = key /\ use_fileshare (self s) = fs.

Let shape (cmd : string) :=
  (cmd, img +:+ ":" +:+ ver, expected_options pub fs workdir,
   [("SIM_WORKSPACE", ws); ("SIM_ACCESS_KEY", key)], admin, scope_task).

Let command_of (command : option string) : string :=
  default "" (if truthy command then command else Some "python main.py").

Lemma fan_out_step_payload (command : option string) (i : Z) (s : State) (j : CloudJob) :
  ready s ->
  find_job jid (service (world s)) = Some j ->
  cloud_job_state j = job_active ->
  has_task (task_name_of i (strip_quote name_raw)) j = false ->
  exists s' t,
    fan_out_step workdir command i s
    = (Ok (if truthy command then command else Some "python main.py"), s') /\
    ready s' /\
    task_param_id t = task_name_of i (strip_quote name_raw) /\
    task_shape t = shape (command_of command) /\
    calls (service (world s')) = calls (service (world s)) ++ [TaskAdd jid t] /\
    find_job jid (service (world s')) = Some (append_task jid t j).
Proof.
  intros (Hcfg & Hpid & Hjid & Himg & Hver & Hws & Hkey & Hfs) Hjob Hact Hnew.
  unfold fan_out_step, config_int, config_get. run. rewrite Hcfg. replay.
  unfold logger_debug, logger_log. run. rewrite Hcfg. replay.
  match goal with
  | |- context [add_task ?c ?n ?d ?st] =>
      destruct (add_task_payload c n d st pub pid jid j)
        as (s' & t & Hrun & Ht & Hself & Hcalls & Hfind & Hshape)
  end; cbn; try assumption.
  - rewrite Hcfg. exact Hpub.
  - rewrite Hrun. cbn. exists s', t. cbn in Hself, Hcalls, Hfind, Hshape.
    split; [reflexivity|]. split.
    { unfold ready. rewrite Hself. cbn. tauto. }
    split; [exact Ht|]. split; [|split; assumption].
    rewrite Hshape, Himg, Hver, Hws, Hkey, Hfs. reflexivity.
Qed.

Lemma command_of_settled (command : option string) :
  command_of (if truthy command then command else Some "python main.py")
  = command_of command.
Proof. unfold command_of. destruct (truthy command) eqn:E; [now rewrite E | reflexivity]. Qed.

Lemma fan_out_loop_payload (indices : list Z) :
  forall (command : option string) (s : State) (j : CloudJob),
    ready s ->
    find_job jid (service (world s)) = Some j ->
    cloud_job_state j = job_active ->
    List.NoDup indices ->
    (forall i, In i indices ->
       has_task (task_name_of i (strip_quote name_raw)) j = false) ->
    exists c s' ts,
      for_fold indices command (fan_out_step workdir) s = (Ok c, s') /\
      ready s' /\
      calls (service (world s')) = calls (service (world s)) ++ map (TaskAdd jid) ts /\
      map task_param_id ts
      = map (fun i => task_name_of i (strip_quote name_raw)) indices /\
      Forall (fun t => task_shape t = shape (command_of command)) ts.
Proof.
  induction indices as [|i rest IH]; intros command s j Hready Hjob Hact Hnd Hnew.
  - exists command, s, []. cbn. rewrite app_nil_r. auto.
  - destruct (fan_out_step_payload command i s j)
      as (s1 & t & Hrun & Hready1 & Ht & Hshape & Hcalls & Hfind);
      auto using in_eq.
    inversion Hnd as [|? ? Hnotin Hnd']; subst.
    destruct (IH (if truthy command then command else Some "python main.py")
                 s1 (append_task jid t j))
      as (c' & s' & ts & Hrest & Hready' & Hcalls' & Hids & Hshapes); auto.
    + now rewrite append_task_state.
    + intros i' Hin. rewrite has_task_append by eauto using find_job_id.
      rewrite Hnew by now right. cbn. rewrite Ht.
      apply String.eqb_neq. intros Heq. apply task_name_of_inj in Heq. congruence.
    + exists c', s', (t :: ts). cbn [for_fold]. unfold bind at 1. rewrite Hrun.
      split; [exact Hrest|]. split; [exact Hready'|]. split; [|split].
      * rewrite Hcalls', Hcalls, <- app_assoc. reflexivity.
      * cbn. now rewrite Ht, Hids.
      * constructor; [exact Hshape|]. now rewrite command_of_settled in Hshapes.
Qed.

End FanOutPayload.

Lemma create_pool_self (skip fileshare : bool) (s s1 : State) :
  create_pool skip fileshare s = (Ok tt, s1) ->
  image_name (self s1) = image_name (self s) /\
  image_version (self s1) = image_version (self s) /\
  workspace (self s1) = workspace (self s) /\
  access_key (self s1) = access_key (self s) /\
  use_fileshare (self s1) = fileshare.
Proof.
  intros H1. destruct s as [o w].
  unfold create_pool, config_int, config_get in H1. run_in H1.
  case_config H1.
  destruct fileshare, skip; cbn in H1; case_config H1;
    unfold logger_info, logger_warning, logger_log, pool_exists, pool_add in H1;
    run_in H1; rewrite ?has_pool_record_call in H1;
    destruct (has_pool _ _) eqn:Hp; cbn in H1;
    rewrite ?has_pool_record_call, ?Hp in H1; cbn in H1; try discriminate H1;
    injection H1 as <-; cbn; repeat split.
Qed.

Lemma add_job_self (job_name : option string) (s s1 : State) :
  add_job job_name s = (Ok tt, s1) ->
  image_name (self s1) = image_name (self s) /\
  image_version (self s1) = image_version (self s) /\
  workspace (self s1) = workspace (self s) /\
  access_key (self s1) = access_key (self s) /\
  use_fileshare (self s1) = use_fileshare (self s).
Proof.
  intros H1. destruct s as [o w].
  unfold add_job, config_get in H1.
  destruct (truthy job_name); run_in H1; case_config H1;
    (destruct (pool_id o) as [pid|] eqn:Hpid; cbn in H1; [|discriminate]);
    unfold logger_info, logger_log, job_add in H1; run_in H1;
    rewrite ?find_job_record_call in H1;
    (destruct (find_job _ _) eqn:Hfind; cbn in H1; [discriminate|]);
    rewrite ?has_pool_record_call in H1;
    (destruct (has_pool _ _); cbn in H1; [|discriminate]);
    injection H1 as <-; cbn; repeat split.
Qed.

Lemma batch_main_run
    (command brain_name workdir : option string)
    (wait_for_tasks log_iterations : bool) (s s1 : State)
    (n delay : Z) (num_raw delay_raw name_raw pub account brain : string) :
  (create_pool true log_iterations ;; add_job None) s = (Ok tt, s1) ->
  lookup_option (config (self s)) "POOL" "NUM_TASKS" = Ok num_raw ->
  int_of_str num_raw = Ok n ->
  0 <= n ->
  lookup_option (config (self s)) "POOL" "TIME_DELAY_BETWEEN_SIMS" = Ok delay_raw ->
  int_of_str delay_raw = Ok delay ->
  lookup_option (config (self s)) "POOL" "JOB_NAME" = Ok name_raw ->
  lookup_option (config (self s)) "POOL" "PUBLISHER" = Ok pub ->
  lookup_option (config (self s)) "BATCH" "ACCOUNT_NAME" = Ok account ->
  lookup_option (config (self s)) "BONSAI" "BRAIN_NAME" = Ok brain ->
  exists r s' jid ts,
    batch_main command brain_name wait_for_tasks log_iterations workdir s = (r, s') /\
    job_id (self s1) = Some jid /\
    job_id (self s') = Some jid /\
    calls (service (world s')) = calls (service (world s1)) ++ map (TaskAdd jid) ts /\
    Z.of_nat (List.length ts) = n /\
    Forall (fun t =>
              task_shape t
              = (default "" (if truthy command then command else Some "python main.py"),
                 image_name (self s) +:+ ":" +:+ image_version (self s),
                 expected_options pub log_iterations workdir,
                 [("SIM_WORKSPACE", workspace (self s));
                  ("SIM_ACCESS_KEY", access_key (self s))],
                 admin, scope_task)) ts.
Proof.
  intros Hpre Hnum Hnum_int Hn Hdelay Hdelay_int Hname Hpub Hacc Hbrain.
  unfold bind in Hpre.
  destruct (create_pool true log_iterations s) as [[[]|e] s0] eqn:Hpool;
    [|discriminate].
  destruct (create_pool_keeps _ _ _ _ Hpool) as (Hc0 & _ & _ & _ & _).
  destruct (create_pool_self _ _ _ _ Hpool) as (Hi0 & Hv0 & Hw0 & Hk0 & Hf0).
  destruct (add_job_run _ _ Hpre) as (jid & pid & Hc1 & Hj1 & Hp1 & _ & Hfind).
  destruct (add_job_self _ _ _ Hpre) as (Hi1 & Hv1 & Hw1 & Hk1 & Hf1).
  rewrite Hc0 in Hc1.
  destruct (fan_out_loop_payload (config (self s)) pub pid jid delay_raw name_raw
              (image_name (self s)) (image_version (self s)) delay
              (workspace (self s)) (access_key (self s)) log_iterations
              workdir Hpub Hdelay Hdelay_int Hname (range n) command
              {| self := self s1;
                 world := set_log
                   (log (world s1) ++
                    [LogRec INFO ("Using batch account " +:+ account +:+ " to run job "
                                  +:+ name_raw +:+ " with " +:+ num_raw +:+ " tasks")])
                   (world s1) |}
              {| cloud_job_id := jid; cloud_job_pool := pid;
                 cloud_job_state := job_active; cloud_job_tasks := [] |})
    as (c & s2 & ts & Hloop & Hready2 & Hcalls & Hids & Hshapes).
  { cbn. repeat split; congruence. }
  { exact Hfind. }
  { reflexivity. }
  { apply range_NoDup. }
  { reflexivity. }
  destruct Hready2 as (_ & _ & Hj2 & _).
  assert (Hlen : Z.of_nat (List.length ts) = n).
  { apply (f_equal (@List.length _)) in Hids. rewrite !List.length_map in Hids.
    rewrite Hids. now apply range_length. }
  unfold batch_main. unfold bind at 1. rewrite Hpool. unfold bind at 1. rewrite Hpre.
  destruct s1 as [o1 w1]. cbn in Hc1, Hcalls, Hloop, Hj1.
  unfold config_get, fan_out, config_int, logger_info, logger_log.
  destruct (truthy brain_name); run;
    repeat (rewrite Hc1; replay); rewrite Hloop; cbn;
    (destruct wait_for_tasks;
     [ rewrite wait_for_tasks_run; cbn | destruct s2 as [o2 w2]; cbn ]);
    do 4 eexists; (split; [reflexivity|]); cbn;
    (split; [exact Hj1|]); (split; [exact Hj2|]); (split; [exact Hcalls|]);
    (split; [exact Hlen | exact Hshapes]).
Qed.

(** Past the deadline the loop does not poll: with the expiration at
    or before the clock it raises its [RuntimeError] at once, having
    printed the newline of line 404 only, and the service is not
    called. *)
Theorem wait_loop_past_deadline (fuel : nat) (expiration timeout : Z) (s : State) :
  expiration <= clock (world s) ->
  exists s',
    wait_loop (S fuel) expiration timeout s
    = (Raise (RuntimeError
                ("ERROR: Tasks did not reach 'Completed' state within "
                 +:+ "timeout period of " +:+ str_timedelta timeout)), s') /\
    service (world s') = service (world s) /\
    stdout (world s') = stdout (world s) ++ [newline].
Proof.
  intros Hge. destruct s as [o w]. cbn in Hge.
  cbn [wait_loop]. unfold bind at 1. run.
  destruct (Z.ltb_spec (clock w) expiration); [lia|]. run.
  eexists. repeat split.
Qed.

Lemma wait_loop_past_deadline_witness :
  exists s',
    wait_loop (wait_fuel 0) (clock (world completed_job_state) + 0) 0 completed_job_state
    = (Raise (RuntimeError
                ("ERROR: Tasks did not reach 'Completed' state within "
                 +:+ "timeout period of " +:+ str_timedelta 0)), s') /\
    service (world s') = service (world completed_job_state) /\
    stdout (world s') = stdout (world completed_job_state) ++ [newline].
Proof.
  apply (wait_loop_past_deadline 1 _ 0 completed_job_state). vm_compute. discriminate.
Defined.

(** A job without tasks passes the barrier at the first poll:
    nothing is incomplete in an empty list. *)
Theorem wait_loop_empty_job (fuel : nat) (expiration timeout : Z) (s : State)
    (jid : string) (j : CloudJob) :
  job_id (self s) = Some jid ->
  find_job jid (service (world s)) = Some j ->
  cloud_job_tasks j = [] ->
  clock (world s) < expiration ->
  fst (wait_loop (S fuel) expiration timeout s) = Ok (Some true).
Proof.
  intros Hjid Hjob Hempty Hlt. destruct s as [o w]. cbn in Hjid, Hjob, Hlt.
  rewrite (wait_loop_round _ _ _ _ _ jid j) by assumption.
  cbv zeta. unfold all_completed. rewrite Hempty. reflexivity.
Qed.

Lemma wait_loop_empty_job_witness :
  fst (wait_loop (wait_fuel (timedelta 2 0))
         (clock (world empty_job_state) + timedelta 2 0) (timedelta 2 0) empty_job_state)
  = Ok (Some true).
Proof.
  apply (wait_loop_empty_job _ _ _ empty_job_state
           "Job-cartpolejob-2020-01-02-13-01-02"
           {| cloud_job_id := "Job-cartpolejob-2020-01-02-13-01-02";
              cloud_job_pool := "cartpolepool10";
              cloud_job_state := job_active; cloud_job_tasks := [] |});
    vm_compute; reflexivity.
Defined.

Lemma wait_loop_success_witness :
  fst (wait_loop 5 (sample_time + 3 * us_per_second) (timedelta 0 3)
         {| self := self completed_job_state; world := world completed_job_state |})
  = Ok (Some true).
Proof.
  apply (wait_loop_success 0 5 _ _ _ _ "Job-cartpolejob-2020-01-02-13-01-02"
           {| cloud_job_id := "Job-cartpolejob-2020-01-02-13-01-02";
              cloud_job_pool := "cartpolepool10";
              cloud_job_state := job_active;
              cloud_job_tasks :=
                default [] (option_map cloud_job_tasks
                  (find_job "Job-cartpolejob-2020-01-02-13-01-02"
                            (service (world completed_job_state)))) |});
    try (vm_compute; reflexivity).
  - lia.
  - intros i Hi. lia.
Defined.

Lemma wait_loop_timeout_witness :
  fst (wait_loop 5 (sample_time + 3 * us_per_second) (timedelta 0 3)
         {| self := self pending_job_state; world := world pending_job_state |})
  = Raise (RuntimeError
             ("ERROR: Tasks did not reach 'Completed' state within "
              +:+ "timeout period of " +:+ str_timedelta (timedelta 0 3))).
Proof.
  apply (wait_loop_timeout 5 _ _ _ _ "Job-cartpolejob-2020-01-02-13-01-02"
           {| cloud_job_id := "Job-cartpolejob-2020-01-02-13-01-02";
              cloud_job_pool := "cartpolepool10";
              cloud_job_state := job_active;
              cloud_job_tasks :=
                default [] (option_map cloud_job_tasks
                  (find_job "Job-cartpolejob-2020-01-02-13-01-02"
                            (service (world pending_job_state)))) |});
    [ vm_compute; reflexivity | vm_compute; reflexivity | lia
    | vm_compute; discriminate | intros i _; reflexivity ].
Defined.

Lemma provisioning_calls (fileshare : bool) (s s1 : State) :
  (create_pool true fileshare ;; add_job None) s = (Ok tt, s1) ->
  exists pid jid creation,
    pool_id (self s1) = Some pid /\
    job_id (self s1) = Some jid /\
    calls (service (world s1))
    = calls (service (world s)) ++ [PoolExists pid] ++ creation ++ [JobAdd jid pid] /\
    (creation = [] \/ exists p, creation = [PoolAdd p] /\ pool_param_id p = pid).
Proof.
  intros Hpre. unfold bind in Hpre.
  destruct (create_pool true fileshare s) as [[[]|e] s0] eqn:H1; [|discriminate].
  destruct s as [o w].
  unfold create_pool, config_int, config_get in H1. run_in H1.
  case_config H1.
  destruct fileshare; cbn in H1; case_config H1;
    unfold logger_info, logger_warning, logger_log, pool_exists, pool_add in H1;
    run_in H1; rewrite ?has_pool_record_call in H1;
    destruct (has_pool _ _) eqn:Hp; cbn in H1;
    rewrite ?has_pool_record_call, ?Hp in H1; cbn in H1; try discriminate H1;
    injection H1 as <-;
    unfold add_job, config_get in Hpre; run_in Hpre; case_config Hpre;
    unfold logger_info, logger_log, job_add in Hpre; run_in Hpre;
    rewrite ?find_job_record_call in Hpre.
  all: (destruct (find_job _ _) eqn:Hfind; cbn in Hpre; [discriminate|]).
  all: rewrite ?has_pool_record_call in Hpre.
  all: first [ rewrite Hp in Hpre | rewrite has_pool_added in Hpre by reflexivity ].
  all: cbn in Hpre; injection Hpre as <-; cbn.
  all: rewrite <- ?app_assoc; cbn.
  all: first
         [ solve [ do 2 eexists; exists [];
                   split; [reflexivity|]; split; [reflexivity|];
                   split; [reflexivity | left; reflexivity] ]
         | solve [ do 2 eexists; eexists [PoolAdd _];
                   split; [reflexivity|]; split; [reflexivity|];
                   split; [reflexivity | right; eexists; split; reflexivity] ] ].
Qed.

(** The tasks of a campaign differ in their id only: each one
    carries the same command ([python main.py] when none is given), the
    image of the instance, the same container options, the two
    credentials of the instance as environment, and the same user
    identity. *)
Theorem fan_out_tasks_alike
    (command brain_name workdir : option string)
    (wait_for_tasks log_iterations : bool) (s s1 : State)
    (n delay : Z) (num_raw delay_raw name_raw pub account brain : string) :
  (create_pool true log_iterations ;; add_job None) s = (Ok tt, s1) ->
  lookup_option (config (self s)) "POOL" "NUM_TASKS" = Ok num_raw ->
  int_of_str num_raw = Ok n ->
  0 <= n ->
  lookup_option (config (self s)) "POOL" "TIME_DELAY_BETWEEN_SIMS" = Ok delay_raw ->
  int_of_str delay_raw = Ok delay ->
  lookup_option (config (self s)) "POOL" "JOB_NAME" = Ok name_raw ->
  lookup_option (config (self s)) "POOL" "PUBLISHER" = Ok pub ->
  lookup_option (config (self s)) "BATCH" "ACCOUNT_NAME" = Ok account ->
  lookup_option (config (self s)) "BONSAI" "BRAIN_NAME" = Ok brain ->
  exists jid ts,
    calls (service (world (snd (batch_main command brain_name wait_for_tasks
                                  log_iterations workdir s))))
    = calls (service (world s1)) ++ map (TaskAdd jid) ts /\
    Forall (fun t =>
              task_shape t
              = (default "" (if truthy command then command else Some "python main.py"),
                 image_name (self s) +:+ ":" +:+ image_version (self s),
                 expected_options pub log_iterations workdir,
                 [("SIM_WORKSPACE", workspace (self s));
                  ("SIM_ACCESS_KEY", access_key (self s))],
                 admin, scope_task)) ts.
Proof.
  intros Hpre Hnum Hnum_int Hn Hdelay Hdelay_int Hname Hpub Hacc Hbrain.
  destruct (batch_main_run command brain_name workdir wait_for_tasks log_iterations
              s s1 n delay num_raw delay_raw name_raw pub account brain
              Hpre Hnum Hnum_int Hn Hdelay Hdelay_int Hname Hpub Hacc Hbrain)
    as (r & s' & jid & ts & Hrun & _ & _ & Hcalls & _ & Hshapes).
  exists jid, ts. rewrite Hrun. cbn [snd]. split; assumption.
Qed.

Lemma fan_out_tasks_alike_witness :
  let s := sample_state (sample_config "linux" "microsoft-azure-batch" "3")
                        (empty_backend (fun _ _ _ => active)) in
  let s1 := snd ((create_pool true true ;; add_job None)%py s) in
  exists jid ts,
    calls (service (world (snd (batch_main None None false true None s))))
    = calls (service (world s1)) ++ map (TaskAdd jid) ts /\
    Forall (fun t =>
              task_shape t
              = ("python main.py", "sims.azurecr.io/cartpole:latest",
                 "--workdir /src/ --volume /azfileshare/:/src/logs",
                 [("SIM_WORKSPACE", Some "w"); ("SIM_ACCESS_KEY", Some "a")],
                 admin, scope_task)) ts.
Proof.
  cbv zeta.
  refine (fan_out_tasks_alike None None None false true
            (sample_state (sample_config "linux" "microsoft-azure-batch" "3")
                          (empty_backend (fun _ _ _ => active)))
            _ 3 1 "3" "1" "'cartpolejob'" "microsoft-azure-batch" "simbatch" "'balance'"
            _ _ _ _ _ _ _ _ _ _);
    try (vm_compute; reflexivity).
  lia.
Defined.

(** The calls of a campaign in the order they reach the service: one
    query for the pool, at most one creation of that pool, the job on
    that pool, and then as many tasks as the configuration counts, all
    of them in that job.  This holds with and without the barrier,
    which fails before its first poll. *)
Theorem batch_main_trace
    (command brain_name workdir : option string)
    (wait_for_tasks log_iterations : bool) (s s1 : State)
    (n delay : Z) (num_raw delay_raw name_raw pub account brain : string) :
  (create_pool true log_iterations ;; add_job None) s = (Ok tt, s1) ->
  lookup_option (config (self s)) "POOL" "NUM_TASKS" = Ok num_raw ->
  int_of_str num_raw = Ok n ->
  0 <= n ->
  lookup_option (config (self s)) "POOL" "TIME_DELAY_BETWEEN_SIMS" = Ok delay_raw ->
  int_of_str delay_raw = Ok delay ->
  lookup_option (config (self s)) "POOL" "JOB_NAME" = Ok name_raw ->
  lookup_option (config (self s)) "POOL" "PUBLISHER" = Ok pub ->
  lookup_option (config (self s)) "BATCH" "ACCOUNT_NAME" = Ok account ->
  lookup_option (config (self s)) "BONSAI" "BRAIN_NAME" = Ok brain ->
  exists pid jid creation ts,
    calls (service (world (snd (batch_main command brain_name wait_for_tasks
                                  log_iterations workdir s))))
    = calls (service (world s))
      ++ [PoolExists pid] ++ creation ++ [JobAdd jid pid] ++ map (TaskAdd jid) ts /\
    (creation = [] \/ exists p, creation = [PoolAdd p] /\ pool_param_id p = pid) /\
    Z.of_nat (List.length ts) = n.
Proof.
  intros Hpre Hnum Hnum_int Hn Hdelay Hdelay_int Hname Hpub Hacc Hbrain.
  destruct (batch_main_run command brain_name workdir wait_for_tasks log_iterations
              s s1 n delay num_raw delay_raw name_raw pub account brain
              Hpre Hnum Hnum_int Hn Hdelay Hdelay_int Hname Hpub Hacc Hbrain)
    as (r & s' & jid & ts & Hrun & Hjid1 & _ & Hcalls & Hlen & _).
  destruct (provisioning_calls _ _ _ Hpre)
    as (pid & jid' & creation & _ & Hjid' & Hpro & Hcre).
  assert (jid' = jid) as -> by congruence.
  exists pid, jid, creation, ts. rewrite Hrun. cbn [snd].
  rewrite Hcalls, Hpro, <- !app_assoc. repeat split; assumption.
Qed.

Lemma batch_main_trace_witness :
  let s := sample_state (sample_config "linux" "microsoft-azure-batch" "3")
                        (empty_backend (fun _ _ _ => active)) in
  exists pid jid creation ts,
    calls (service (world (snd (batch_main None None true false None s))))
    = calls (service (world s))
      ++ [PoolExists pid] ++ creation ++ [JobAdd jid pid] ++ map (TaskAdd jid) ts /\
    (creation = [] \/ exists p, creation = [PoolAdd p] /\ pool_param_id p = pid) /\
    Z.of_nat (List.length ts) = 3.
Proof.
  cbv zeta.
  refine (batch_main_trace None None None true false
            (sample_state (sample_config "linux" "microsoft-azure-batch" "3")
                          (empty_backend (fun _ _ _ => active)))
            _ 3 1 "3" "1" "'cartpolejob'" "microsoft-azure-batch" "simbatch" "'balance'"
            _ _ _ _ _ _ _ _ _ _);
    try (vm_compute; reflexivity).
  lia.
Defined.

Lemma create_pool_reuses_witness :
  let s1 := snd (create_pool true true empty_job_state) in
  calls (service (world s1))
    = calls (service (world empty_job_state))
      ++ [PoolExists (strip_quote "'cartpolepool10'")] /\
  pools (service (world s1)) = pools (service (world empty_job_state)).
Proof.
  cbv zeta.
  apply (create_pool_reuses true empty_job_state _ "'cartpolepool10'");
    vm_compute; reflexivity.
Defined.

Lemma tasks_per_node_floor_witness :
  tasks_per_node_of (ArgInt 100) (9 + 1) = Ok (spec_tasks_per_node 100 (9 + 1)).
Proof.
  apply (tasks_per_node_floor 100 (9 + 1)); split; vm_compute; congruence.
Defined.
